(** * D-Claw gridded maximum values: the temporal reducer of [dclaw/maxval.py]

    A shallow embedding of [dclaw2maxval_withlev]: the per-timestep update of
    the running maxima (the body of its [for file in files] loop), the masking
    that follows the loop, and the driver around them.

    Arrays.  Every numpy array of the function has the shape [dims] of the
    first raster; the function only uses elementwise operations, masked
    assignment and one whole-array maximum, so an array is modelled by the
    list of its cells in row-major order.

    Numbers.  The summary arrays are [float32]; the bands read from the
    rasters are taken to be [float32] as well, and the Python scalars that
    meet them ([time], [dx], [rho_f], [rho_s], the literals [0.01], [1e-5],
    [9.81], [60]) are used at that precision.  Floats are the IEEE-754
    values of [SpecFloat] at precision 24 and maximal exponent 128, with its
    correctly rounded operations; there is one NaN.  The [level] band holds
    integral refinement levels; they are modelled by [Z], as are the [int]
    arrays [*_lev]. *)

From Stdlib Require Import ZArith Bool Lia.
From Stdlib Require Import Floats.SpecFloat.
From stdpp Require Import base list strings sorting.

Local Open Scope Z_scope.

(** ** binary32 *)

Abbreviation f32 := spec_float.

Module F32.
Definition prec : Z := 24.
Definition emax : Z := 128.

Definition nan : f32 := S754_nan.
Definition zero : f32 := S754_zero false.
Definition of_Z (z : Z) : f32 := binary_normalize prec emax z 0 false.

Definition add : f32 -> f32 -> f32 := SFadd prec emax.
Definition sub : f32 -> f32 -> f32 := SFsub prec emax.
Definition mul : f32 -> f32 -> f32 := SFmul prec emax.
Definition div : f32 -> f32 -> f32 := SFdiv prec emax.
Definition sqrt : f32 -> f32 := SFsqrt prec emax.

(** [x ** 2] and [x ** 0.5] on a float array are numpy's square and sqrt. *)
Definition sq (x : f32) : f32 := mul x x.

Definition lt (x y : f32) : bool := SFltb x y.
Definition gt (x y : f32) : bool := SFltb y x.
Definition ge (x y : f32) : bool := SFleb y x.
Definition eq (x y : f32) : bool := SFeqb x y.

Definition isnan (x : f32) : bool :=
  match x with S754_nan => true | _ => false end.

(** The literals of the source, rounded to binary32. *)
Definition c_0_01 : f32 := div (of_Z 1) (of_Z 100).
Definition c_1em5 : f32 := div (of_Z 1) (of_Z 100000).
Definition c_9_81 : f32 := div (of_Z 981) (of_Z 100).
Definition c_60 : f32 := of_Z 60.
Definition c_1 : f32 := of_Z 1.
Definition c_m1 : f32 := of_Z (-1).
End F32.

#[global] Instance f32_inhabited : Inhabited f32 := populate F32.nan.

(** ** numpy arrays as lists *)

Module Np.
Section Ops.
Context {A B C : Type}.

(** [a op b], elementwise. *)
Definition map2 (f : A -> B -> C) (a : list A) (b : list B) : list C :=
  zip_with f a b.

(** [a[mask] = v[mask]]. *)
Definition put (a : list A) (mask : list bool) (v : list A) : list A :=
  zip_with (fun x (p : bool * A) => if p.1 then p.2 else x) a (zip mask v).

(** [a[mask] = c] for a scalar [c]. *)
Definition fill (a : list A) (mask : list bool) (c : A) : list A :=
  zip_with (fun x (b : bool) => if b then c else x) a mask.
End Ops.

(** [level.max()]; a raster has at least one cell. *)
Definition amax (l : list Z) : Z :=
  match l with
  | [] => 0
  | x :: r => foldr Z.max x r
  end.
End Np.

(** ** The data of the reducer *)

(** One timestep: the time of [fort.tNNNN] and the bands of [fort_qNNNN.tif]. *)
Record Frame := {
  time : f32;
  dx : f32;             (* transform[0] *)
  h : list f32;         (* band 1 *)
  hu : list f32;        (* band 2 *)
  hv : list f32;        (* band 3 *)
  hm : list f32;        (* band 4 *)
  eta : list f32;       (* band 8 *)
  level : list Z        (* band 9 *)
}.

(** The arrays that live across the loop. *)
Record State := {
  h_max : list f32;
  h_min : list f32;
  m_max : list f32;
  vel_max : list f32;
  mom_max : list f32;
  eta_max : list f32;
  lev_max : list Z;
  froude_max : list f32;
  h_max_lev : list Z;
  h_min_lev : list Z;
  m_max_lev : list Z;
  vel_max_lev : list Z;
  mom_max_lev : list Z;
  eta_max_lev : list Z;
  froude_max_lev : list Z;
  arrival_time : list f32;
  eta_max_time : list f32;
  vel_max_time : list f32
}.

Record Params := {
  rho_f : f32;
  rho_s : f32
}.

Definition hmin_fill : f32 := F32.of_Z 99999.

(** The arrays as allocated before the loop, for [n] cells. *)
Definition init (n : nat) : State := {|
  h_max := replicate n F32.zero;
  h_min := replicate n hmin_fill;
  m_max := replicate n F32.zero;
  vel_max := replicate n F32.zero;
  mom_max := replicate n F32.zero;
  eta_max := replicate n F32.zero;
  lev_max := replicate n 0;
  froude_max := replicate n F32.zero;
  h_max_lev := replicate n 0;
  h_min_lev := replicate n 0;
  m_max_lev := replicate n 0;
  vel_max_lev := replicate n 0;
  mom_max_lev := replicate n 0;
  eta_max_lev := replicate n 0;
  froude_max_lev := replicate n 0;
  arrival_time := replicate n F32.c_m1;
  eta_max_time := replicate n F32.c_m1;
  vel_max_time := replicate n F32.c_m1
|}.

(** ** Derived quantities of a frame *)

Definition nan_to_zero (x : f32) : f32 := if F32.isnan x then F32.zero else x.

(** [m = hm / h; m[np.isnan(m)] = 0] *)
Definition m (fr : Frame) : list f32 :=
  nan_to_zero <$> Np.map2 F32.div (hm fr) (h fr).

(** [vel = ((hu / h) ** 2 + (hv / h) ** 2) ** 0.5; vel[np.isnan(vel)] = 0] *)
Definition vel (fr : Frame) : list f32 :=
  nan_to_zero <$>
    (F32.sqrt <$>
       Np.map2 F32.add (F32.sq <$> Np.map2 F32.div (hu fr) (h fr))
                       (F32.sq <$> Np.map2 F32.div (hv fr) (h fr))).

(** [froude = vel / np.sqrt(9.81 * h)] *)
Definition froude (fr : Frame) : list f32 :=
  Np.map2 F32.div (vel fr) (F32.sqrt <$> (F32.mul F32.c_9_81 <$> h fr)).

(** [density = (1.0 - m) * rho_f + (m * rho_s)] *)
Definition density (p : Params) (fr : Frame) : list f32 :=
  Np.map2 F32.add
    ((fun x => F32.mul (F32.sub F32.c_1 x) (rho_f p)) <$> m fr)
    ((fun x => F32.mul x (rho_s p)) <$> m fr).

(** [mom = (h * dx * dx) * density * vel] *)
Definition mom (p : Params) (fr : Frame) : list f32 :=
  Np.map2 F32.mul
    (Np.map2 F32.mul
       ((fun x => F32.mul (F32.mul x (dx fr)) (dx fr)) <$> h fr)
       (density p fr))
    (vel fr).

Definition maxlevel (fr : Frame) : Z := Np.amax (level fr).

(** ** The overwrite masks *)

(** [((level >= q_lev) & cmp(q, q_best)) | (level > q_lev)] *)
Definition overwrite_cell (cmp : f32 -> f32 -> bool)
    (lvl qlev : Z) (new old : f32) : bool :=
  ((lvl >=? qlev) && cmp new old) || (lvl >? qlev).

Definition overwrite (cmp : f32 -> f32 -> bool)
    (lvl qlev : list Z) (new old : list f32) : list bool :=
  Np.map2 orb
    (Np.map2 andb (Np.map2 Z.geb lvl qlev) (Np.map2 cmp new old))
    (Np.map2 Z.gtb lvl qlev).

Definition overwrite_eta (st : State) (fr : Frame) : list bool :=
  overwrite F32.gt (level fr) (eta_max_lev st) (eta fr) (eta_max st).
Definition overwrite_h_max (st : State) (fr : Frame) : list bool :=
  overwrite F32.gt (level fr) (h_max_lev st) (h fr) (h_max st).
Definition overwrite_h_min (st : State) (fr : Frame) : list bool :=
  overwrite F32.lt (level fr) (h_min_lev st) (h fr) (h_min st).
Definition overwrite_m (st : State) (fr : Frame) : list bool :=
  overwrite F32.gt (level fr) (m_max_lev st) (m fr) (m_max st).
Definition overwrite_vel (st : State) (fr : Frame) : list bool :=
  overwrite F32.gt (level fr) (vel_max_lev st) (vel fr) (vel_max st).
Definition overwrite_mom (p : Params) (st : State) (fr : Frame) : list bool :=
  overwrite F32.gt (level fr) (mom_max_lev st) (mom p fr) (mom_max st).
Definition overwrite_froude (st : State) (fr : Frame) : list bool :=
  overwrite F32.gt (level fr) (froude_max_lev st) (froude fr) (froude_max st).

(** [(eta > 0.01) & (arrival_time < 0) & (level == maxlevel)] *)
Definition overwrite_arrival (st : State) (fr : Frame) : list bool :=
  Np.map2 andb
    (Np.map2 andb
       ((fun e => F32.gt e F32.c_0_01) <$> eta fr)
       ((fun a => F32.lt a F32.zero) <$> arrival_time st))
    ((fun l => l =? maxlevel fr) <$> level fr).

(** The three time arrays after the arrival assignments. *)
Definition arrival_time_1 (st : State) (fr : Frame) : list f32 :=
  Np.fill (arrival_time st) (overwrite_arrival st fr) (time fr).
Definition eta_max_time_1 (st : State) (fr : Frame) : list f32 :=
  Np.fill (eta_max_time st) (overwrite_arrival st fr) (time fr).
Definition vel_max_time_1 (st : State) (fr : Frame) : list f32 :=
  Np.fill (vel_max_time st) (overwrite_arrival st fr) (time fr).

(** [((time - eta_max_time) < 1 * 60) & (arrival_time >= 0)], read after the
    arrival assignments. *)
Definition not_super_late (st : State) (fr : Frame) : list bool :=
  Np.map2 andb
    ((fun t => F32.lt (F32.sub (time fr) t) F32.c_60) <$> eta_max_time_1 st fr)
    ((fun a => F32.ge a F32.zero) <$> arrival_time_1 st fr).

Definition overwrite_eta_time (st : State) (fr : Frame) : list bool :=
  Np.map2 andb (overwrite_eta st fr) (not_super_late st fr).
Definition overwrite_vel_time (st : State) (fr : Frame) : list bool :=
  Np.map2 andb (overwrite_vel st fr) (not_super_late st fr).

(** ** One pass of the loop body *)

Definition fold (p : Params) (st : State) (fr : Frame) : State := {|
  lev_max := Np.put (lev_max st) (Np.map2 Z.gtb (level fr) (lev_max st)) (level fr);
  eta_max_lev := Np.put (eta_max_lev st) (overwrite_eta st fr) (level fr);
  h_max_lev := Np.put (h_max_lev st) (overwrite_h_max st fr) (level fr);
  h_min_lev := Np.put (h_min_lev st) (overwrite_h_min st fr) (level fr);
  m_max_lev := Np.put (m_max_lev st) (overwrite_m st fr) (level fr);
  vel_max_lev := Np.put (vel_max_lev st) (overwrite_vel st fr) (level fr);
  mom_max_lev := Np.put (mom_max_lev st) (overwrite_mom p st fr) (level fr);
  froude_max_lev := Np.put (froude_max_lev st) (overwrite_froude st fr) (level fr);
  arrival_time := arrival_time_1 st fr;
  h_max := Np.put (h_max st) (overwrite_h_max st fr) (h fr);
  h_min := Np.put (h_min st) (overwrite_h_min st fr) (h fr);
  m_max := Np.put (m_max st) (overwrite_m st fr) (m fr);
  vel_max := Np.put (vel_max st) (overwrite_vel st fr) (vel fr);
  mom_max := Np.put (mom_max st) (overwrite_mom p st fr) (mom p fr);
  eta_max := Np.put (eta_max st) (overwrite_eta st fr) (eta fr);
  froude_max := Np.put (froude_max st) (overwrite_froude st fr) (froude fr);
  eta_max_time := Np.fill (eta_max_time_1 st fr) (overwrite_eta_time st fr) (time fr);
  vel_max_time := Np.fill (vel_max_time_1 st fr) (overwrite_vel_time st fr) (time fr)
|}.

Definition fold_all (p : Params) (st : State) (frs : list Frame) : State :=
  foldl (fold p) st frs.

(** ** The masking after the loop *)

(** [never_inundated = h_max < 0.00001] *)
Definition never_inundated (st : State) : list bool :=
  (fun x => F32.lt x F32.c_1em5) <$> h_max st.

(** [a[a < 0] = np.nan] *)
Definition mask_negative (a : list f32) : list f32 :=
  Np.fill a ((fun x => F32.lt x F32.zero) <$> a) F32.nan.

Definition finalize (st : State) : State := {|
  h_max := Np.fill (h_max st) (never_inundated st) F32.nan;
  h_min := Np.fill (h_min st) ((fun x => F32.eq x F32.zero) <$> h_min st) F32.nan;
  m_max := Np.fill (m_max st) (never_inundated st) F32.nan;
  vel_max := Np.fill (vel_max st) (never_inundated st) F32.nan;
  mom_max := Np.fill (mom_max st) (never_inundated st) F32.nan;
  eta_max_time :=
    mask_negative (Np.fill (eta_max_time st) (never_inundated st) F32.nan);
  vel_max_time :=
    mask_negative (Np.fill (vel_max_time st) (never_inundated st) F32.nan);
  arrival_time :=
    mask_negative (Np.fill (arrival_time st) (never_inundated st) F32.nan);
  froude_max := Np.fill (froude_max st) (never_inundated st) F32.nan;
  eta_max := eta_max st;
  lev_max := lev_max st;
  h_max_lev := h_max_lev st;
  h_min_lev := h_min_lev st;
  m_max_lev := m_max_lev st;
  vel_max_lev := vel_max_lev st;
  mom_max_lev := mom_max_lev st;
  eta_max_lev := eta_max_lev st;
  froude_max_lev := froude_max_lev st
|}.

(** ** The tracked quantities *)

Inductive Quantity := Eta | Hmax | Hmin | Mmax | Velmax | Mommax | Froudemax.

(** The running best of a quantity, the level it was recorded at, what a
    frame offers for it, and the comparison that decides. *)
Definition qval (q : Quantity) (st : State) : list f32 :=
  match q with
  | Eta => eta_max st
  | Hmax => h_max st
  | Hmin => h_min st
  | Mmax => m_max st
  | Velmax => vel_max st
  | Mommax => mom_max st
  | Froudemax => froude_max st
  end.

Definition qlev (q : Quantity) (st : State) : list Z :=
  match q with
  | Eta => eta_max_lev st
  | Hmax => h_max_lev st
  | Hmin => h_min_lev st
  | Mmax => m_max_lev st
  | Velmax => vel_max_lev st
  | Mommax => mom_max_lev st
  | Froudemax => froude_max_lev st
  end.

Definition qnew (q : Quantity) (p : Params) (fr : Frame) : list f32 :=
  match q with
  | Eta => eta fr
  | Hmax => h fr
  | Hmin => h fr
  | Mmax => m fr
  | Velmax => vel fr
  | Mommax => mom p fr
  | Froudemax => froude fr
  end.

Definition qcmp (q : Quantity) : f32 -> f32 -> bool :=
  match q with
  | Hmin => F32.lt
  | _ => F32.gt
  end.

Definition qmask (q : Quantity) (p : Params) (st : State) (fr : Frame) : list bool :=
  match q with
  | Eta => overwrite_eta st fr
  | Hmax => overwrite_h_max st fr
  | Hmin => overwrite_h_min st fr
  | Mmax => overwrite_m st fr
  | Velmax => overwrite_vel st fr
  | Mommax => overwrite_mom p st fr
  | Froudemax => overwrite_froude st fr
  end.

(** ** Shapes *)

Record Frame_shape (n : nat) (fr : Frame) : Prop := {
  sh_h : length (h fr) = n;
  sh_hu : length (hu fr) = n;
  sh_hv : length (hv fr) = n;
  sh_hm : length (hm fr) = n;
  sh_eta : length (eta fr) = n;
  sh_level : length (level fr) = n
}.

Record State_shape (n : nat) (st : State) : Prop := {
  sh_h_max : length (h_max st) = n;
  sh_h_min : length (h_min st) = n;
  sh_m_max : length (m_max st) = n;
  sh_vel_max : length (vel_max st) = n;
  sh_mom_max : length (mom_max st) = n;
  sh_eta_max : length (eta_max st) = n;
  sh_lev_max : length (lev_max st) = n;
  sh_froude_max : length (froude_max st) = n;
  sh_h_max_lev : length (h_max_lev st) = n;
  sh_h_min_lev : length (h_min_lev st) = n;
  sh_m_max_lev : length (m_max_lev st) = n;
  sh_vel_max_lev : length (vel_max_lev st) = n;
  sh_mom_max_lev : length (mom_max_lev st) = n;
  sh_eta_max_lev : length (eta_max_lev st) = n;
  sh_froude_max_lev : length (froude_max_lev st) = n;
  sh_arrival_time : length (arrival_time st) = n;
  sh_eta_max_time : length (eta_max_time st) = n;
  sh_vel_max_time : length (vel_max_time st) = n
}.

(** ** Arrival *)

(** The part of [overwrite_arrival] that a frame decides on its own. *)
Definition arrives (i : nat) (fr : Frame) : bool :=
  F32.gt (eta fr !!! i) F32.c_0_01 && (level fr !!! i =? maxlevel fr).

(** ** The driver *)

Inductive Exn := ValueError_no_files | UnboundLocalError_profile.

(** A [fort_qNNNN.tif] with its [fort.tNNNN]: the frame number of the file
    name, the raster's size, and what is read from the two files. *)
Record RasterFile := {
  frameno : Z;
  height : nat;
  width : nat;
  bands : Frame
}.

(** [calc]: a frame is skipped when [nplots] is given and does not list it. *)
Definition calc (nplots : option (list Z)) (file : RasterFile) : bool :=
  match nplots with
  | None => true
  | Some l => bool_decide (frameno file ∈ l)
  end.

Definition loop (p : Params) (nplots : option (list Z))
    (files : list RasterFile) (st : State) : State :=
  foldl (fun st file => if calc nplots file then fold p st (bands file) else st)
        st files.

(** What [dst.write] receives. *)
Inductive Band := FloatBand (a : list f32) | LevelBand (a : list Z).

Definition write_bands (st : State) (write_froude : bool) : list (nat * Band) :=
  [ (1%nat, FloatBand (h_max st));
    (2%nat, FloatBand (vel_max st));
    (3%nat, FloatBand (mom_max st));
    (4%nat, FloatBand (m_max st));
    (5%nat, FloatBand (eta_max_time st));
    (6%nat, FloatBand (vel_max_time st));
    (7%nat, FloatBand (eta_max st));
    (8%nat, LevelBand (lev_max st));
    (9%nat, FloatBand (arrival_time st));
    (10%nat, FloatBand (h_min st)) ]
  ++ (if write_froude then [(11%nat, FloatBand (froude_max st))] else []).

(** The array written as band [k]. *)
Definition band_of (k : nat) (out : list (nat * Band)) : option Band :=
  snd <$> List.find (fun kb => Nat.eqb (fst kb) k) out.

(** [dims = (src.meta["height"], src.meta["width"])], as a number of cells. *)
Definition dims (first : RasterFile) : nat := (height first * width first)%nat.

(** [files] is the sorted result of the glob.  [profile] and [transform] are
    bound only inside the loop, by a frame that is not skipped.  The extent
    shapefile that follows the raster is not modelled. *)
Definition dclaw2maxval_withlev (files : list RasterFile)
    (nplots : option (list Z)) (p : Params) (write_froude : bool)
    : Exn + list (nat * Band) :=
  match files with
  | [] => inl ValueError_no_files
  | first :: _ =>
      let st := finalize (loop p nplots files (init (dims first))) in
      if existsb (calc nplots) files
      then inr (write_bands st write_froude)
      else inl UnboundLocalError_profile
  end.

(** The times of a cell are either all unset or all set. *)
Definition times_together (a e v : f32) : Prop :=
  (a = F32.c_m1 /\ e = F32.c_m1 /\ v = F32.c_m1) \/
  (F32.ge a F32.zero = true /\ F32.ge e F32.zero = true /\
   F32.ge v F32.zero = true).

(** The number of cells of a written band. *)
Definition band_cells (b : Band) : nat :=
  match b with
  | FloatBand a => length a
  | LevelBand a => length a
  end.

(** The frames of the files that [calc] lets through, in the order of the
    files. *)
Definition processed (nplots : option (list Z)) (files : list RasterFile)
    : list Frame :=
  bands <$> List.filter (calc nplots) files.

(** ** The extent *)

(** The three [if extent_shp_val == ...] of the source, in their order; a
    selector that is none of the three leaves [extent] unbound. *)
Definition extent (extent_shp_val : string) (extent_shp_val_thresh : f32)
    (st : State) : option (list bool) :=
  let gt_thresh := fun x => F32.gt x extent_shp_val_thresh in
  let e0 : option (list bool) := None in
  let e1 := if String.eqb extent_shp_val "height"
            then Some (gt_thresh <$> h_max st) else e0 in
  let e2 := if String.eqb extent_shp_val "momentum"
            then Some (gt_thresh <$> mom_max st) else e1 in
  let e3 := if String.eqb extent_shp_val "velocity"
            then Some (gt_thresh <$> vel_max st) else e2 in
  e3.

(** What a call leaves on disk, in the order of writing: the raster, and the
    shapefile of the polygons that [features.shapes] draws around the cells
    of the extent mask. *)
Inductive Written :=
  | Raster (out : list (nat * Band))
  | Shapefile (mask : list bool).

Inductive Failure :=
  | Raised (e : Exn)
  | UnboundLocalError_extent
  | AssertionError_is_valid.

(** The whole of [dclaw2maxval_withlev], with the extent that follows the
    raster.  [is_valid mask] stands for
    [unary_union(geoms).buffer(0).is_valid], which shapely decides. *)
Definition dclaw2maxval_withlev_extent (is_valid : list bool -> bool)
    (files : list RasterFile) (nplots : option (list Z)) (p : Params)
    (write_froude : bool) (extent_shp : bool) (extent_shp_val : string)
    (extent_shp_val_thresh : f32) : list Written * option Failure :=
  match files with
  | [] => ([], Some (Raised ValueError_no_files))
  | first :: _ =>
      let st := finalize (loop p nplots files (init (dims first))) in
      if existsb (calc nplots) files
      then
        let raster := [Raster (write_bands st write_froude)] in
        if extent_shp
        then match extent extent_shp_val extent_shp_val_thresh st with
             | None => (raster, Some UnboundLocalError_extent)
             | Some mask =>
                 if is_valid mask
                 then (raster ++ [Shapefile mask], None)
                 else (raster, Some AssertionError_is_valid)
             end
        else (raster, None)
      else ([], Some (Raised UnboundLocalError_profile))
  end.

(** ** The command line *)

(** argparse: an option with [action="store_true"] ([store_false]) holds
    [True] ([False]) when the flag is on the command line and its default
    otherwise; without [default=] the default is the opposite constant. *)
Inductive Action := store_true | store_false.

Definition flag (a : Action) (default : option bool) (present : bool) : bool :=
  let const := match a with store_true => true | store_false => false end in
  if present then const
  else match default with
       | Some d => d
       | None => negb const
       end.

(** The options of [main] that reach the reduction: which of the flags
    [-cd], [-wf], [-shp] are present, and the values given to [-sval] and
    [-sth], if any. *)
Record CommandLine := {
  cl_cd : bool;
  cl_wf : bool;
  cl_shp : bool;
  cl_sval : option string;
  cl_sth : option f32
}.

Definition arg_check_done (cl : CommandLine) : bool :=
  flag store_true (Some true) (cl_cd cl).
Definition arg_write_froude (cl : CommandLine) : bool :=
  flag store_false (Some false) (cl_wf cl).
Definition arg_extent_shp (cl : CommandLine) : bool :=
  flag store_false None (cl_shp cl).

(** [-sval] has [choices=["height", "momentum", "velocity"]] and the default
    ["height"]; any other value ends the parse with a usage error. *)
Definition arg_extent_shp_val (cl : CommandLine) : option string :=
  match cl_sval cl with
  | None => Some "height"
  | Some v =>
      if bool_decide (v ∈ ["height"; "momentum"; "velocity"])
      then Some v else None
  end.

Definition arg_extent_shp_val_thresh (cl : CommandLine) : f32 :=
  match cl_sth cl with
  | None => F32.zero
  | Some t => t
  end.

(** A [fort.qNNNN] of the output directory: its number, its modification
    time, and that of its [fort_qNNNN.tif] if there is one. *)
Record FortFile := {
  numstr : Z;
  mtime_fort : spec_float;
  mtime_tif : option spec_float
}.

(** [process]: a file is converted anew unless its tif exists, [check_done]
    is set and the tif is newer. *)
Definition process (check_done : bool) (f : FortFile) : bool :=
  match mtime_tif f with
  | Some t =>
      if check_done
      then (if SFltb (mtime_fort f) t then false else true)
      else true
  | None => true
  end.

(** [nfiles], after [np.sort]. *)
Definition nfiles (check_done : bool) (forts : list FortFile) : list Z :=
  merge_sort Z.le (numstr <$> filter (fun f => process check_done f = true) forts).

(** The frames handed to [convertfortdir]; [None] when it is not called. *)
Definition converted (check_done : bool) (forts : list FortFile)
    : option (list Z) :=
  match nfiles check_done forts with
  | [] => None
  | l => Some l
  end.

Inductive MainResult :=
  | UsageError
  | Ran (conv : option (list Z)) (written : list Written)
        (failure : option Failure).

(** [main]: [forts] is what the glob finds in the output directory, [tifs]
    the rasters of the gridded directory once [convertfortdir] has run, [dig]
    the densities of [get_dig_data]. *)
Definition main (is_valid : list bool -> bool) (cl : CommandLine)
    (forts : list FortFile) (tifs : list RasterFile) (dig : Params)
    : MainResult :=
  match arg_extent_shp_val cl with
  | None => UsageError
  | Some sval =>
      let '(written, failure) :=
        dclaw2maxval_withlev_extent is_valid tifs None dig
          (arg_write_froude cl) (arg_extent_shp cl) sval
          (arg_extent_shp_val_thresh cl) in
      Ran (converted (arg_check_done cl) forts) written failure
  end.

(** ** Sample inputs *)

Module Sample.
Definition p : Params := {| rho_f := F32.of_Z 1000; rho_s := F32.of_Z 2700 |}.

(** A one-cell frame. *)
Definition cell (t : Z) (lvl : Z) (depth flux_x flux_y solid surface : f32)
    : Frame :=
  {| time := F32.of_Z t; dx := F32.of_Z 1;
     h := [depth]; hu := [flux_x]; hv := [flux_y]; hm := [solid];
     eta := [surface]; level := [lvl] |}.

(** A dry cell and a flowing one, one metre deep. *)
Definition dry (t lvl : Z) : Frame :=
  cell t lvl F32.zero F32.zero F32.zero F32.zero F32.zero.
Definition wet (t lvl : Z) : Frame :=
  cell t lvl (F32.of_Z 1) (F32.of_Z 1) F32.zero
       (F32.div (F32.of_Z 1) (F32.of_Z 2)) (F32.of_Z 1).
(** A cell that only carries a surface elevation. *)
Definition surface (t lvl : Z) (e : Z) : Frame :=
  cell t lvl F32.zero F32.zero F32.zero F32.zero (F32.of_Z e).
(** A cell deeper than the fill value of [h_min]. *)
Definition deep (t lvl : Z) : Frame :=
  cell t lvl (F32.of_Z 100000) F32.zero F32.zero F32.zero (F32.of_Z 100000).

(** Two cells with a surface elevation each, at their own levels. *)
Definition two (t : Z) (l0 l1 : Z) (e0 e1 : Z) : Frame :=
  {| time := F32.of_Z t; dx := F32.of_Z 1;
     h := [F32.zero; F32.zero]; hu := [F32.zero; F32.zero];
     hv := [F32.zero; F32.zero]; hm := [F32.zero; F32.zero];
     eta := [F32.of_Z e0; F32.of_Z e1]; level := [l0; l1] |}.

Definition file (k : Z) (fr : Frame) : RasterFile :=
  {| frameno := k; height := 1; width := 1; bands := fr |}.
End Sample.

(** ** Reading a cell of an array expression *)

Section Cells.
Context {A B C : Type} `{!Inhabited A, !Inhabited B, !Inhabited C}.

Lemma length_map2 (f : A -> B -> C) a b :
  length (Np.map2 f a b) = (length a `min` length b)%nat.
Proof. apply length_zip_with. Qed.

Lemma length_put (a : list A) mask v :
  length (Np.put a mask v) = (length a `min` (length mask `min` length v))%nat.
Proof. unfold Np.put. now rewrite !length_zip_with. Qed.

Lemma length_fill (a : list A) mask c :
  length (Np.fill a mask c) = (length a `min` length mask)%nat.
Proof. apply length_zip_with. Qed.

Lemma cell_map2 (f : A -> B -> C) a b i :
  (i < length a)%nat -> (i < length b)%nat ->
  Np.map2 f a b !!! i = f (a !!! i) (b !!! i).
Proof.
  intros Ha Hb. unfold Np.map2.
  rewrite !list_lookup_total_alt, lookup_zip_with.
  destruct (lookup_lt_is_Some_2 a i Ha) as [x ->].
  destruct (lookup_lt_is_Some_2 b i Hb) as [y ->].
  reflexivity.
Qed.

Lemma cell_fill (a : list A) (mask : list bool) c i :
  (i < length a)%nat -> (i < length mask)%nat ->
  Np.fill a mask c !!! i = if (mask !!! i : bool) then c else a !!! i.
Proof.
  intros Ha Hm. unfold Np.fill.
  rewrite !list_lookup_total_alt, lookup_zip_with.
  destruct (lookup_lt_is_Some_2 a i Ha) as [x ->].
  destruct (lookup_lt_is_Some_2 mask i Hm) as [b ->].
  reflexivity.
Qed.

Lemma cell_put (a : list A) (mask : list bool) v i :
  (i < length a)%nat -> (i < length mask)%nat -> (i < length v)%nat ->
  Np.put a mask v !!! i = if (mask !!! i : bool) then v !!! i else a !!! i.
Proof.
  intros Ha Hm Hv. unfold Np.put.
  rewrite !list_lookup_total_alt, lookup_zip_with, lookup_zip_with.
  destruct (lookup_lt_is_Some_2 a i Ha) as [x ->].
  destruct (lookup_lt_is_Some_2 mask i Hm) as [b ->].
  destruct (lookup_lt_is_Some_2 v i Hv) as [y ->].
  reflexivity.
Qed.

Lemma cell_fmap (f : A -> B) a i :
  (i < length a)%nat -> (f <$> a) !!! i = f (a !!! i).
Proof. apply list_lookup_total_fmap. Qed.

Lemma cell_replicate (x : A) n i :
  (i < n)%nat -> replicate n x !!! i = x.
Proof. apply lookup_total_replicate_2. Qed.
End Cells.

(** Array expressions are opened up to the bands and the state arrays. *)
Ltac open_arrays :=
  unfold qmask, qnew, qval, qlev,
    overwrite_eta_time, overwrite_vel_time, not_super_late,
    arrival_time_1, eta_max_time_1, vel_max_time_1, overwrite_arrival,
    overwrite_eta, overwrite_h_max, overwrite_h_min, overwrite_m,
    overwrite_vel, overwrite_mom, overwrite_froude, overwrite,
    mom, density, froude, vel, m in *.

Ltac len :=
  open_arrays;
  repeat rewrite ?length_map2, ?length_put, ?length_fill, ?length_fmap,
    ?length_replicate;
  repeat match goal with
  | H : length _ = _ |- _ => rewrite !H
  end;
  rewrite ?Nat.min_id;
  lia.

Ltac cells :=
  repeat first
    [ rewrite cell_map2 by len
    | rewrite cell_put by len
    | rewrite cell_fill by len
    | rewrite cell_fmap by len
    | rewrite cell_replicate by len ].

(** Projections of the record expressions of [init], [fold], [finalize]. *)
Ltac fields :=
  cbn [init fold finalize
       h_max h_min m_max vel_max mom_max eta_max lev_max froude_max
       h_max_lev h_min_lev m_max_lev vel_max_lev mom_max_lev eta_max_lev
       froude_max_lev arrival_time eta_max_time vel_max_time].

Ltac shapes :=
  repeat match goal with
  | H : Frame_shape _ _ |- _ => destruct H
  | H : State_shape _ _ |- _ => destruct H
  end.

Lemma cell_overwrite cmp (lvl qlv : list Z) (new old : list f32) i :
  (i < length lvl)%nat -> (i < length qlv)%nat ->
  (i < length new)%nat -> (i < length old)%nat ->
  overwrite cmp lvl qlv new old !!! i =
  overwrite_cell cmp (lvl !!! i) (qlv !!! i) (new !!! i) (old !!! i).
Proof. intros. unfold overwrite, overwrite_cell. now cells. Qed.

Lemma length_qnew n p fr q : Frame_shape n fr -> length (qnew q p fr) = n.
Proof. intros. shapes. destruct q; len. Qed.

Lemma length_qval n st q : State_shape n st -> length (qval q st) = n.
Proof. intros. shapes. now destruct q. Qed.

Lemma length_qlev n st q : State_shape n st -> length (qlev q st) = n.
Proof. intros. shapes. now destruct q. Qed.

Lemma qmask_overwrite q p st fr :
  qmask q p st fr =
  overwrite (qcmp q) (level fr) (qlev q st) (qnew q p fr) (qval q st).
Proof. now destruct q. Qed.

Lemma qval_fold q p st fr :
  qval q (fold p st fr) = Np.put (qval q st) (qmask q p st fr) (qnew q p fr).
Proof. now destruct q. Qed.

Lemma qlev_fold q p st fr :
  qlev q (fold p st fr) = Np.put (qlev q st) (qmask q p st fr) (level fr).
Proof. now destruct q. Qed.

(** The mask of a quantity at a cell is the source's expression on the
    cell's values. *)
Lemma cell_qmask n q p st fr i :
  State_shape n st -> Frame_shape n fr -> (i < n)%nat ->
  qmask q p st fr !!! i =
  overwrite_cell (qcmp q) (level fr !!! i) (qlev q st !!! i)
                 (qnew q p fr !!! i) (qval q st !!! i).
Proof.
  intros Hst Hfr Hi. rewrite qmask_overwrite.
  pose proof (length_qnew n p fr q Hfr).
  pose proof (length_qval n st q Hst).
  pose proof (length_qlev n st q Hst).
  destruct Hfr. apply cell_overwrite; lia.
Qed.

Lemma length_qmask n q p st fr :
  State_shape n st -> Frame_shape n fr -> length (qmask q p st fr) = n.
Proof.
  intros Hst Hfr. rewrite qmask_overwrite.
  pose proof (length_qnew n p fr q Hfr).
  pose proof (length_qval n st q Hst).
  pose proof (length_qlev n st q Hst).
  destruct Hfr. unfold overwrite. rewrite !length_map2. lia.
Qed.

Lemma fold_shape n p st fr :
  State_shape n st -> Frame_shape n fr -> State_shape n (fold p st fr).
Proof. intros Hst Hfr. shapes. constructor; fields; len. Qed.

Lemma init_shape n : State_shape n (init n).
Proof. constructor; fields; apply length_replicate. Qed.

Lemma fold_all_shape n p frs : forall st,
  State_shape n st -> Forall (Frame_shape n) frs ->
  State_shape n (fold_all p st frs).
Proof.
  induction frs as [|fr frs IH]; intros st Hst Hfrs; [exact Hst|].
  inversion Hfrs; subst. apply IH; [now apply fold_shape | assumption].
Qed.

(** What one pass does to the record of a quantity at a cell. *)
Lemma fold_cell n p st fr q i :
  State_shape n st -> Frame_shape n fr -> (i < n)%nat ->
  let ow := overwrite_cell (qcmp q) (level fr !!! i) (qlev q st !!! i)
                           (qnew q p fr !!! i) (qval q st !!! i) in
  qval q (fold p st fr) !!! i = (if ow then qnew q p fr !!! i else qval q st !!! i) /\
  qlev q (fold p st fr) !!! i = (if ow then level fr !!! i else qlev q st !!! i).
Proof.
  intros Hst Hfr Hi ow.
  pose proof (cell_qmask n q p st fr i Hst Hfr Hi) as Hm.
  pose proof (length_qmask n q p st fr Hst Hfr) as Lm.
  pose proof (length_qnew n p fr q Hfr) as Ln.
  pose proof (length_qval n st q Hst) as Lv.
  pose proof (length_qlev n st q Hst) as Ll.
  pose proof (sh_level n fr Hfr) as Lf.
  split.
  - rewrite qval_fold, cell_put by lia. now rewrite Hm.
  - rewrite qlev_fold, cell_put by lia. now rewrite Hm.
Qed.

Lemma overwrite_cell_finer cmp lvl qlv new old :
  qlv < lvl -> overwrite_cell cmp lvl qlv new old = true.
Proof.
  intros Hlt. unfold overwrite_cell.
  replace (lvl >? qlv) with true by (symmetry; lia). apply orb_true_r.
Qed.

Lemma overwrite_cell_coarser cmp lvl qlv new old :
  lvl < qlv -> overwrite_cell cmp lvl qlv new old = false.
Proof.
  intros Hlt. unfold overwrite_cell.
  replace (lvl >? qlv) with false by (symmetry; lia).
  now replace (lvl >=? qlv) with false by (symmetry; lia).
Qed.

Lemma overwrite_cell_level cmp lvl qlv new old :
  overwrite_cell cmp lvl qlv new old = true -> qlv <= lvl.
Proof.
  unfold overwrite_cell. intros Hm.
  apply orb_prop in Hm as [Hm|Hm]; [apply andb_prop in Hm as [Hm _]|]; lia.
Qed.

(** C1. In one pass of the loop, for each of the seven tracked quantities, the
    recorded value and the recorded level of a cell are replaced by the
    frame's value and level exactly when
    [((level >= q_lev) & cmp(new, best)) | (level > q_lev)] holds at the cell,
    and are kept otherwise; a strictly finer level always overwrites and a
    strictly coarser level never does. *)
Theorem fold_overwrite_rule (n : nat) (p : Params) (st : State) (fr : Frame)
    (q : Quantity) (i : nat) :
  State_shape n st -> Frame_shape n fr -> (i < n)%nat ->
  let lvl := level fr !!! i in
  let qlv := qlev q st !!! i in
  let new := qnew q p fr !!! i in
  let old := qval q st !!! i in
  let ow := ((lvl >=? qlv) && qcmp q new old) || (lvl >? qlv) in
  qmask q p st fr !!! i = ow /\
  qval q (fold p st fr) !!! i = (if ow then new else old) /\
  qlev q (fold p st fr) !!! i = (if ow then lvl else qlv) /\
  (qlv < lvl -> ow = true) /\
  (lvl < qlv -> ow = false).
Proof.
  intros Hst Hfr Hi lvl qlv new old ow.
  destruct (fold_cell n p st fr q i Hst Hfr Hi) as [Hv Hl].
  split; [exact (cell_qmask n q p st fr i Hst Hfr Hi)|].
  split; [exact Hv|]. split; [exact Hl|]. split.
  - apply overwrite_cell_finer.
  - apply overwrite_cell_coarser.
Qed.

Lemma fold_overwrite_rule_witness :
  qval Eta (fold Sample.p (init 1) (Sample.surface 0 1 5)) !!! 0%nat = F32.of_Z 5 /\
  qlev Eta (fold Sample.p (init 1) (Sample.surface 0 1 5)) !!! 0%nat = 1.
Proof.
  destruct (fold_overwrite_rule 1 Sample.p (init 1) (Sample.surface 0 1 5) Eta 0)
    as (_ & Hv & Hl & _).
  - apply init_shape.
  - repeat constructor.
  - lia.
  - split; [exact Hv | exact Hl].
Defined.

(** ** Levels only refine *)

Lemma fold_level_step n p st fr q i :
  State_shape n st -> Frame_shape n fr -> (i < n)%nat ->
  qlev q st !!! i <= qlev q (fold p st fr) !!! i.
Proof.
  intros Hst Hfr Hi.
  destruct (fold_cell n p st fr q i Hst Hfr Hi) as [_ ->].
  destruct (overwrite_cell _ _ _ _ _) eqn:Hm; [|reflexivity].
  now apply overwrite_cell_level in Hm.
Qed.

(** C10. For every tracked quantity and every cell the recorded level never
    decreases along the loop: a pass that overwrites the record writes a level
    at least as fine as the recorded one, and so does any sequence of
    passes. *)
Theorem recorded_level_monotone (n : nat) (p : Params) (q : Quantity)
    (i : nat) (frs : list Frame) (st : State) :
  State_shape n st -> Forall (Frame_shape n) frs -> (i < n)%nat ->
  (forall fr, Frame_shape n fr -> qmask q p st fr !!! i = true ->
     qlev q st !!! i <= level fr !!! i /\
     qlev q (fold p st fr) !!! i = level fr !!! i) /\
  qlev q st !!! i <= qlev q (fold_all p st frs) !!! i.
Proof.
  intros Hst Hfrs Hi. split.
  - intros fr Hfr Hm.
    destruct (fold_cell n p st fr q i Hst Hfr Hi) as [_ Hlev].
    rewrite (cell_qmask n q p st fr i Hst Hfr Hi) in Hm.
    rewrite Hlev, Hm. split; [|reflexivity].
    now apply overwrite_cell_level in Hm.
  - revert st Hst. induction Hfrs as [|fr frs Hfr _ IH]; intros st Hst.
    + reflexivity.
    + etransitivity; [apply (fold_level_step n p st fr q i Hst Hfr Hi)|].
      apply IH. now apply fold_shape.
Qed.

Lemma recorded_level_monotone_witness :
  qlev Hmax (init 1) !!! 0%nat <=
  qlev Hmax (fold_all Sample.p (init 1) [Sample.wet 0 2; Sample.wet 1 1]) !!! 0%nat.
Proof.
  apply (recorded_level_monotone 1 Sample.p Hmax 0
           [Sample.wet 0 2; Sample.wet 1 1] (init 1)).
  - apply init_shape.
  - repeat constructor.
  - lia.
Defined.

(** ** Level precedence on two frames *)

(** C6. Two frames observe a cell, one at level 1 offering the value 5 and one
    at level 2 offering the value 3 for the same quantity; whatever the order
    in which the two are folded into a state whose record for the cell is
    coarser than level 2 (the fresh state in particular), the record ends as
    the value 3 at level 2. *)
Theorem level_precedence_either_order (n : nat) (p : Params) (q : Quantity)
    (i : nat) (st : State) (f1 f2 : Frame) :
  State_shape n st -> Frame_shape n f1 -> Frame_shape n f2 -> (i < n)%nat ->
  qlev q st !!! i < 2 ->
  level f1 !!! i = 1 -> qnew q p f1 !!! i = F32.of_Z 5 ->
  level f2 !!! i = 2 -> qnew q p f2 !!! i = F32.of_Z 3 ->
  (qval q (fold p (fold p st f1) f2) !!! i = F32.of_Z 3 /\
   qlev q (fold p (fold p st f1) f2) !!! i = 2) /\
  (qval q (fold p (fold p st f2) f1) !!! i = F32.of_Z 3 /\
   qlev q (fold p (fold p st f2) f1) !!! i = 2).
Proof.
  intros Hst H1 H2 Hi Hq L1 V1 L2 V2.
  pose proof (fold_shape n p st f1 Hst H1) as Hs1.
  pose proof (fold_shape n p st f2 Hst H2) as Hs2.
  destruct (fold_cell n p st f1 q i Hst H1 Hi) as [_ La].
  destruct (fold_cell n p (fold p st f1) f2 q i Hs1 H2 Hi) as [Vb Lb].
  destruct (fold_cell n p st f2 q i Hst H2 Hi) as [Vc Lc].
  destruct (fold_cell n p (fold p st f2) f1 q i Hs2 H1 Hi) as [Vd Ld].
  split.
  - assert (qlev q (fold p st f1) !!! i < 2) as Hlt.
    { rewrite La. destruct (overwrite_cell _ _ _ _ _); lia. }
    rewrite overwrite_cell_finer in Vb, Lb by lia.
    now rewrite Vb, Lb, V2, L2.
  - rewrite overwrite_cell_finer in Vc, Lc by lia.
    rewrite overwrite_cell_coarser in Vd, Ld by lia.
    now rewrite Vd, Ld, Vc, Lc, V2, L2.
Qed.

Lemma level_precedence_either_order_witness :
  (qval Eta (fold Sample.p (fold Sample.p (init 1) (Sample.surface 0 1 5))
                  (Sample.surface 1 2 3)) !!! 0%nat = F32.of_Z 3 /\
   qlev Eta (fold Sample.p (fold Sample.p (init 1) (Sample.surface 0 1 5))
                  (Sample.surface 1 2 3)) !!! 0%nat = 2) /\
  (qval Eta (fold Sample.p (fold Sample.p (init 1) (Sample.surface 1 2 3))
                  (Sample.surface 0 1 5)) !!! 0%nat = F32.of_Z 3 /\
   qlev Eta (fold Sample.p (fold Sample.p (init 1) (Sample.surface 1 2 3))
                  (Sample.surface 0 1 5)) !!! 0%nat = 2).
Proof.
  apply (level_precedence_either_order 1 Sample.p Eta 0 (init 1)
           (Sample.surface 0 1 5) (Sample.surface 1 2 3)).
  - apply init_shape.
  - repeat constructor.
  - repeat constructor.
  - lia.
  - reflexivity.
  - reflexivity.
  - reflexivity.
  - reflexivity.
  - reflexivity.
Defined.

(** ** The time arrays *)

Lemma cell_overwrite_arrival n st fr i :
  State_shape n st -> Frame_shape n fr -> (i < n)%nat ->
  overwrite_arrival st fr !!! i =
  F32.lt (arrival_time st !!! i) F32.zero && arrives i fr.
Proof.
  intros Hst Hfr Hi. shapes. unfold overwrite_arrival, arrives. cells.
  destruct (F32.gt _ _), (F32.lt _ _), (_ =? _); reflexivity.
Qed.

Lemma length_overwrite_arrival n st fr :
  State_shape n st -> Frame_shape n fr -> length (overwrite_arrival st fr) = n.
Proof. intros. shapes. len. Qed.

Lemma cell_arrival_time n p st fr i :
  State_shape n st -> Frame_shape n fr -> (i < n)%nat ->
  arrival_time (fold p st fr) !!! i =
  if F32.lt (arrival_time st !!! i) F32.zero && arrives i fr
  then time fr else arrival_time st !!! i.
Proof.
  intros Hst Hfr Hi.
  pose proof (length_overwrite_arrival n st fr Hst Hfr).
  pose proof (sh_arrival_time n st Hst).
  fields. unfold arrival_time_1. rewrite cell_fill by lia.
  now rewrite (cell_overwrite_arrival n st fr i Hst Hfr Hi).
Qed.

(** Along a sequence of passes the arrival time of a cell is decided by the
    first frame that arrives there, if the cell has none yet. *)
Lemma arrival_fold_all n p i frs : forall st,
  State_shape n st -> Forall (Frame_shape n) frs -> (i < n)%nat ->
  Forall (fun fr => F32.lt (time fr) F32.zero = false) frs ->
  arrival_time (fold_all p st frs) !!! i =
  if F32.lt (arrival_time st !!! i) F32.zero
  then match List.find (arrives i) frs with
       | Some fr => time fr
       | None => arrival_time st !!! i
       end
  else arrival_time st !!! i.
Proof.
  induction frs as [|fr frs IH]; intros st Hst Hfrs Hi Ht.
  - cbn. now destruct (F32.lt _ _).
  - inversion Hfrs as [|? ? Hfr Hfrs']; subst.
    inversion Ht as [|? ? Htf Ht']; subst.
    cbn [fold_all foldl List.find].
    change (foldl (fold p) (fold p st fr) frs) with (fold_all p (fold p st fr) frs).
    rewrite IH by (try apply fold_shape; assumption).
    rewrite (cell_arrival_time n p st fr i Hst Hfr Hi).
    destruct (F32.lt (arrival_time st !!! i) F32.zero) eqn:Ha; cbn [andb].
    + destruct (arrives i fr); [now rewrite Htf | now rewrite Ha].
    + now rewrite Ha.
Qed.

(** C4. With frame times that are not negative, the arrival time of a cell is
    written at most once along the loop: starting from the fresh state it is
    the time of the first frame at which the cell's surface elevation exceeds
    0.01 and its level is the frame's maximal level (the cell then still holds
    the fill value -1), it stays -1 if there is no such frame, and no later
    pass changes it, whether or not the later frame meets the condition
    again. *)
Theorem arrival_written_once (n : nat) (p : Params) (i : nat)
    (frs later : list Frame) :
  Forall (Frame_shape n) frs -> Forall (Frame_shape n) later -> (i < n)%nat ->
  Forall (fun fr => F32.lt (time fr) F32.zero = false) frs ->
  Forall (fun fr => F32.lt (time fr) F32.zero = false) later ->
  arrival_time (fold_all p (init n) frs) !!! i =
    match List.find (arrives i) frs with
    | Some fr => time fr
    | None => F32.c_m1
    end /\
  (forall fr, List.find (arrives i) frs = Some fr ->
     arrival_time (fold_all p (fold_all p (init n) frs) later) !!! i = time fr).
Proof.
  intros Hfrs Hlater Hi Ht Htl.
  assert (arrival_time (init n) !!! i = F32.c_m1) as H0
    by (fields; now apply cell_replicate).
  assert (arrival_time (fold_all p (init n) frs) !!! i =
          match List.find (arrives i) frs with
          | Some fr => time fr
          | None => F32.c_m1
          end) as Hfirst.
  { rewrite (arrival_fold_all n p i frs (init n) (init_shape n) Hfrs Hi Ht).
    now rewrite H0. }
  split; [exact Hfirst|].
  intros fr Hfind.
  rewrite (arrival_fold_all n p i later (fold_all p (init n) frs)) by
    (try apply fold_all_shape; try apply init_shape; assumption).
  rewrite Hfirst, Hfind.
  apply find_some in Hfind as [Hin _].
  rewrite Forall_forall in Ht. apply list_elem_of_In in Hin.
  now rewrite (Ht fr Hin).
Qed.

Lemma arrival_written_once_witness :
  arrival_time
    (fold_all Sample.p (init 2)
       [Sample.two 0 1 2 5 5; Sample.two 10 2 2 6 6; Sample.two 20 2 2 7 7])
    !!! 0%nat = F32.of_Z 10 /\
  arrival_time
    (fold_all Sample.p
       (fold_all Sample.p (init 2)
          [Sample.two 0 1 2 5 5; Sample.two 10 2 2 6 6; Sample.two 20 2 2 7 7])
       [Sample.two 30 2 2 8 8])
    !!! 0%nat = F32.of_Z 10.
Proof.
  destruct (arrival_written_once 2 Sample.p 0
              [Sample.two 0 1 2 5 5; Sample.two 10 2 2 6 6; Sample.two 20 2 2 7 7]
              [Sample.two 30 2 2 8 8]) as [Hfirst Hlater].
  - repeat constructor.
  - repeat constructor.
  - lia.
  - repeat constructor.
  - repeat constructor.
  - split; [exact Hfirst | exact (Hlater _ eq_refl)].
Defined.

Lemma length_not_super_late n st fr :
  State_shape n st -> Frame_shape n fr -> length (not_super_late st fr) = n.
Proof. intros. shapes. len. Qed.

Lemma cell_not_super_late n st fr i :
  State_shape n st -> Frame_shape n fr -> (i < n)%nat ->
  not_super_late st fr !!! i =
  F32.lt (F32.sub (time fr) (eta_max_time_1 st fr !!! i)) F32.c_60
  && F32.ge (arrival_time_1 st fr !!! i) F32.zero.
Proof.
  intros Hst Hfr Hi. shapes. unfold not_super_late.
  rewrite cell_map2, !cell_fmap by len. reflexivity.
Qed.

(** C5. In one pass the peak time of the surface elevation (of the velocity)
    becomes the frame's time exactly at the cells where the overwrite mask of
    the surface-elevation maximum (of the velocity maximum) holds, the frame's
    time is less than 60 after the cell's surface-elevation peak time, and the
    cell's arrival time is at least 0, both read after the arrival
    assignments of the pass; everywhere else the peak time keeps the value it
    has after those assignments. *)
Theorem peak_time_rearm (n : nat) (p : Params) (st : State) (fr : Frame)
    (i : nat) :
  State_shape n st -> Frame_shape n fr -> (i < n)%nat ->
  let recent :=
    F32.lt (F32.sub (time fr) (eta_max_time_1 st fr !!! i)) F32.c_60
    && F32.ge (arrival_time_1 st fr !!! i) F32.zero in
  eta_max_time (fold p st fr) !!! i =
    (if (qmask Eta p st fr !!! i : bool) && recent
     then time fr else eta_max_time_1 st fr !!! i) /\
  vel_max_time (fold p st fr) !!! i =
    (if (qmask Velmax p st fr !!! i : bool) && recent
     then time fr else vel_max_time_1 st fr !!! i) /\
  eta_max_time_1 st fr !!! i =
    (if (overwrite_arrival st fr !!! i : bool) then time fr else eta_max_time st !!! i) /\
  vel_max_time_1 st fr !!! i =
    (if (overwrite_arrival st fr !!! i : bool) then time fr else vel_max_time st !!! i) /\
  arrival_time_1 st fr !!! i =
    (if (overwrite_arrival st fr !!! i : bool) then time fr else arrival_time st !!! i).
Proof.
  intros Hst Hfr Hi recent.
  pose proof (length_overwrite_arrival n st fr Hst Hfr) as La.
  pose proof (length_not_super_late n st fr Hst Hfr) as Ls.
  pose proof (length_qmask n Eta p st fr Hst Hfr) as Le.
  pose proof (length_qmask n Velmax p st fr Hst Hfr) as Lv.
  pose proof (cell_not_super_late n st fr i Hst Hfr Hi) as Hs.
  destruct Hst, Hfr. cbn [qmask] in *.
  assert (length (eta_max_time_1 st fr) = n) as L1
    by (unfold eta_max_time_1; rewrite length_fill; lia).
  assert (length (vel_max_time_1 st fr) = n) as L2
    by (unfold vel_max_time_1; rewrite length_fill; lia).
  repeat split.
  - fields. unfold overwrite_eta_time.
    rewrite cell_fill, cell_map2, Hs; rewrite ?length_map2; try lia.
    reflexivity.
  - fields. unfold overwrite_vel_time.
    rewrite cell_fill, cell_map2, Hs; rewrite ?length_map2; try lia.
    reflexivity.
  - unfold eta_max_time_1. now rewrite cell_fill by lia.
  - unfold vel_max_time_1. now rewrite cell_fill by lia.
  - unfold arrival_time_1. now rewrite cell_fill by lia.
Qed.

Lemma peak_time_rearm_witness :
  eta_max_time
    (fold Sample.p (fold Sample.p (init 1) (Sample.surface 0 1 5))
          (Sample.surface 30 1 6)) !!! 0%nat = F32.of_Z 30 /\
  eta_max_time
    (fold Sample.p (fold Sample.p (init 1) (Sample.surface 0 1 5))
          (Sample.surface 90 1 6)) !!! 0%nat = F32.of_Z 0.
Proof.
  split.
  - destruct (peak_time_rearm 1 Sample.p
                (fold Sample.p (init 1) (Sample.surface 0 1 5))
                (Sample.surface 30 1 6) 0) as (He & _).
    + apply fold_shape; [apply init_shape | repeat constructor].
    + repeat constructor.
    + lia.
    + exact He.
  - destruct (peak_time_rearm 1 Sample.p
                (fold Sample.p (init 1) (Sample.surface 0 1 5))
                (Sample.surface 90 1 6) 0) as (He & _).
    + apply fold_shape; [apply init_shape | repeat constructor].
    + repeat constructor.
    + lia.
    + exact He.
Defined.

(** ** The masking after the loop *)

Lemma cell_never_inundated n st i :
  State_shape n st -> (i < n)%nat ->
  never_inundated st !!! i = F32.lt (h_max st !!! i) F32.c_1em5.
Proof.
  intros Hst Hi. destruct Hst. unfold never_inundated.
  now rewrite cell_fmap by lia.
Qed.

Lemma length_never_inundated n st :
  State_shape n st -> length (never_inundated st) = n.
Proof. intros Hst. destruct Hst. unfold never_inundated. now rewrite length_fmap. Qed.

Lemma cell_mask_negative (a : list f32) i :
  (i < length a)%nat ->
  mask_negative a !!! i =
  if F32.lt (a !!! i) F32.zero then F32.nan else a !!! i.
Proof.
  intros Hi. unfold mask_negative.
  rewrite cell_fill, cell_fmap; rewrite ?length_fmap; try lia. reflexivity.
Qed.

(** A never-inundated cell of a time array ends as NaN, and so does a
    negative one. *)
Lemma cell_masked_time (a : list f32) (mask : list bool) i :
  (i < length a)%nat -> (i < length mask)%nat ->
  mask_negative (Np.fill a mask F32.nan) !!! i =
  if (mask !!! i : bool) then F32.nan
  else if F32.lt (a !!! i) F32.zero then F32.nan else a !!! i.
Proof.
  intros Ha Hm.
  rewrite cell_mask_negative by (rewrite length_fill; lia).
  rewrite cell_fill by lia. now destruct (mask !!! i).
Qed.

(** C2, as the code has it. After the masking, a cell whose depth maximum was
    below 1e-5 holds NaN in the depth, solid-fraction, velocity,
    momentum-flux and froude maxima, in both peak times and in the arrival
    time; the depth minimum is replaced by NaN exactly at the cells where it
    equals 0 and is kept everywhere else, the fill value 99999 included; and a
    negative value of any of the three time arrays is replaced by NaN. *)
Theorem finalize_masking (n : nat) (st : State) (i : nat) :
  State_shape n st -> (i < n)%nat ->
  (F32.lt (h_max st !!! i) F32.c_1em5 = true ->
     h_max (finalize st) !!! i = F32.nan /\
     m_max (finalize st) !!! i = F32.nan /\
     vel_max (finalize st) !!! i = F32.nan /\
     mom_max (finalize st) !!! i = F32.nan /\
     froude_max (finalize st) !!! i = F32.nan /\
     eta_max_time (finalize st) !!! i = F32.nan /\
     vel_max_time (finalize st) !!! i = F32.nan /\
     arrival_time (finalize st) !!! i = F32.nan) /\
  h_min (finalize st) !!! i =
    (if F32.eq (h_min st !!! i) F32.zero then F32.nan else h_min st !!! i) /\
  (F32.lt (eta_max_time st !!! i) F32.zero = true ->
     eta_max_time (finalize st) !!! i = F32.nan) /\
  (F32.lt (vel_max_time st !!! i) F32.zero = true ->
     vel_max_time (finalize st) !!! i = F32.nan) /\
  (F32.lt (arrival_time st !!! i) F32.zero = true ->
     arrival_time (finalize st) !!! i = F32.nan).
Proof.
  intros Hst Hi.
  pose proof (cell_never_inundated n st i Hst Hi) as Hc.
  pose proof (length_never_inundated n st Hst) as Ln.
  destruct Hst. fields.
  rewrite !cell_masked_time by lia.
  split; [|split; [|split; [|split]]].
  - intros Hdry. rewrite !cell_fill by lia. rewrite Hc, Hdry. now repeat split.
  - rewrite cell_fill, cell_fmap; rewrite ?length_fmap; try lia. reflexivity.
  - intros ->. now destruct (never_inundated st !!! i).
  - intros ->. now destruct (never_inundated st !!! i).
  - intros ->. now destruct (never_inundated st !!! i).
Qed.

Lemma finalize_masking_witness :
  h_max (finalize (fold Sample.p (init 1) (Sample.dry 0 1))) !!! 0%nat = F32.nan /\
  h_min (finalize (fold Sample.p (init 1) (Sample.dry 0 1))) !!! 0%nat = F32.nan /\
  arrival_time (finalize (fold Sample.p (init 1) (Sample.dry 0 1))) !!! 0%nat = F32.nan.
Proof.
  destruct (finalize_masking 1 (fold Sample.p (init 1) (Sample.dry 0 1)) 0)
    as (Hdry & Hmin & _ & _ & Harr).
  - apply fold_shape; [apply init_shape | repeat constructor].
  - lia.
  - destruct (Hdry eq_refl) as (Hh & _).
    split; [exact Hh|]. split; [exact Hmin|]. exact (Harr eq_refl).
Defined.

(** C2, as stated, fails on the depth minimum. A cell written with the depth 0
    has left the fill value and is masked all the same; a cell that was never
    written keeps the fill value 99999 through the masking. *)
Lemma finalize_h_min_ignores_fill :
  (h_min (fold Sample.p (init 1) (Sample.dry 0 0)) !!! 0%nat = F32.zero /\
   h_min (fold Sample.p (init 1) (Sample.dry 0 0)) !!! 0%nat <> hmin_fill /\
   h_min (finalize (fold Sample.p (init 1) (Sample.dry 0 0))) !!! 0%nat = F32.nan) /\
  (h_min (fold Sample.p (init 1) (Sample.deep 0 0)) !!! 0%nat = hmin_fill /\
   h_min (finalize (fold Sample.p (init 1) (Sample.deep 0 0))) !!! 0%nat = hmin_fill /\
   hmin_fill <> F32.nan).
Proof.
  vm_compute. repeat split; discriminate.
Qed.

Section Masking.
Variable P : f32 -> bool.
Hypothesis P_nan : P F32.nan = false.

Lemma fill_self_twice (a : list f32) :
  Np.fill (Np.fill a (P <$> a) F32.nan)
          (P <$> Np.fill a (P <$> a) F32.nan) F32.nan
  = Np.fill a (P <$> a) F32.nan.
Proof.
  unfold Np.fill. induction a as [|x a IH]; [reflexivity|].
  cbn [fmap list_fmap zip_with]. f_equal; [|exact IH].
  destruct (P x) eqn:Hx; [now rewrite P_nan | now rewrite Hx].
Qed.

Lemma fill_other_twice (b a : list f32) :
  Np.fill (Np.fill b (P <$> a) F32.nan)
          (P <$> Np.fill a (P <$> a) F32.nan) F32.nan
  = Np.fill b (P <$> a) F32.nan.
Proof.
  unfold Np.fill. revert a.
  induction b as [|y b IH]; intros [|x a]; try reflexivity.
  cbn [fmap list_fmap zip_with]. f_equal; [|apply IH].
  destruct (P x) eqn:Hx; [now rewrite P_nan | now rewrite Hx].
Qed.

Lemma time_twice (t a : list f32) :
  mask_negative
    (Np.fill (mask_negative (Np.fill t (P <$> a) F32.nan))
             (P <$> Np.fill a (P <$> a) F32.nan) F32.nan)
  = mask_negative (Np.fill t (P <$> a) F32.nan).
Proof.
  unfold mask_negative, Np.fill. revert a.
  induction t as [|y t IH]; intros [|x a]; try reflexivity.
  cbn [fmap list_fmap zip_with]. f_equal; [|apply IH].
  destruct (P x) eqn:Hx.
  - cbn. now rewrite P_nan.
  - rewrite Hx. destruct (F32.lt y F32.zero) eqn:Hy.
    + cbn. reflexivity.
    + now rewrite Hy.
Qed.
End Masking.

(** C7. The masking after the loop is idempotent: applied to an already
    masked state it changes nothing. *)
Theorem finalize_idempotent (st : State) :
  finalize (finalize st) = finalize st.
Proof.
  unfold finalize at 1. cbn [finalize h_max h_min m_max vel_max mom_max
    eta_max lev_max froude_max h_max_lev h_min_lev m_max_lev vel_max_lev
    mom_max_lev eta_max_lev froude_max_lev arrival_time eta_max_time
    vel_max_time never_inundated].
  unfold finalize, never_inundated.
  f_equal;
    first [ apply fill_self_twice; reflexivity
          | apply fill_other_twice; reflexivity
          | apply time_twice; reflexivity ].
Qed.

(** C9. The masking leaves the surface-elevation maximum and the highest
    level seen as the loop accumulated them, at every cell, and these are the
    arrays written as bands 7 and 8. *)
Theorem finalize_keeps_eta_max_lev_max (st : State) (write_froude : bool)
    (first : RasterFile) (rest : list RasterFile) (nplots : option (list Z))
    (p : Params) :
  eta_max (finalize st) = eta_max st /\
  lev_max (finalize st) = lev_max st /\
  band_of 7 (write_bands (finalize st) write_froude)
    = Some (FloatBand (eta_max st)) /\
  band_of 8 (write_bands (finalize st) write_froude)
    = Some (LevelBand (lev_max st)) /\
  match dclaw2maxval_withlev (first :: rest) nplots p write_froude with
  | inr out =>
      band_of 7 out =
        Some (FloatBand (eta_max (loop p nplots (first :: rest) (init (dims first)))))
      /\ band_of 8 out =
        Some (LevelBand (lev_max (loop p nplots (first :: rest) (init (dims first)))))
  | inl _ => True
  end.
Proof.
  repeat split.
  unfold dclaw2maxval_withlev.
  destruct (existsb (calc nplots) (first :: rest)); [|exact I].
  split; reflexivity.
Qed.

(** ** The driver *)

(** C8. When the glob finds no raster, the function raises [ValueError]
    before any array is allocated, any frame folded or any band written; it
    raises that error in no other case. *)
Theorem no_files_raises (files : list RasterFile) (nplots : option (list Z))
    (p : Params) (write_froude : bool) :
  files = [] <->
  dclaw2maxval_withlev files nplots p write_froude = inl ValueError_no_files.
Proof.
  split.
  - intros ->. reflexivity.
  - destruct files as [|first rest]; [reflexivity|].
    unfold dclaw2maxval_withlev.
    destruct (existsb (calc nplots) (first :: rest)); discriminate.
Qed.

Lemma no_files_raises_witness :
  dclaw2maxval_withlev [] (Some [1; 2]) Sample.p true = inl ValueError_no_files.
Proof.
  apply (proj1 (no_files_raises [] (Some [1; 2]) Sample.p true)).
  reflexivity.
Defined.

(** ** Zero depth *)

(** The derived quantities of a dry cell, whatever the rest of the frame. *)
Lemma dry_cell_derived n fr i :
  Frame_shape n fr -> (i < n)%nat ->
  h fr !!! i = F32.zero -> hu fr !!! i = F32.zero ->
  hv fr !!! i = F32.zero -> hm fr !!! i = F32.zero ->
  m fr !!! i = F32.zero /\ vel fr !!! i = F32.zero /\ froude fr !!! i = F32.nan.
Proof.
  intros Hfr Hi Hh Hu Hv Hm. destruct Hfr.
  assert (vel fr !!! i = F32.zero) as Hvel.
  { unfold vel. cells. now rewrite Hh, Hu, Hv. }
  split; [|split; [exact Hvel|]].
  - unfold m. cells. now rewrite Hh, Hm.
  - unfold froude. rewrite cell_map2, !cell_fmap by len.
    now rewrite Hvel, Hh.
Qed.

(** C3, on the code. At a dry cell (zero depth and zero fluxes) the solid
    fraction and the velocity are 0, but the froude number is 0/0 = NaN: only
    [m] and [vel] have their NaN replaced.  At level 1 the NaN is written over
    the fresh record of the froude maximum, and a later frame at the same
    level with a positive froude number no longer wins the comparison
    against it, so that the NaN stays at a cell that the masking counts as
    inundated. *)
Theorem dry_cell_froude_nan :
  m (Sample.dry 0 1) = [F32.zero] /\
  vel (Sample.dry 0 1) = [F32.zero] /\
  froude (Sample.dry 0 1) = [F32.nan] /\
  froude_max (fold Sample.p (init 1) (Sample.dry 0 1)) = [F32.nan] /\
  F32.gt (froude (Sample.wet 1 1) !!! 0%nat) F32.zero = true /\
  froude_max (fold_all Sample.p (init 1) [Sample.dry 0 1; Sample.wet 1 1])
    = [F32.nan] /\
  never_inundated (fold_all Sample.p (init 1) [Sample.dry 0 1; Sample.wet 1 1])
    = [false] /\
  h_max (finalize (fold_all Sample.p (init 1) [Sample.dry 0 1; Sample.wet 1 1]))
    = [F32.of_Z 1].
Proof. vm_compute. repeat split. Qed.

(** ** The order of binary32 values *)

Lemma SFcompare_antisym x y :
  SFcompare y x = option_map CompOpp (SFcompare x y).
Proof.
  destruct x as [[]|[]| |[] mx ex], y as [[]|[]| |[] my ey];
    cbn; try reflexivity;
    rewrite (Z.compare_antisym ex ey); destruct (ex ?= ey); cbn; try reflexivity;
    change (Pos.compare_cont Eq my mx) with (Pos.compare my mx);
    change (Pos.compare_cont Eq mx my) with (Pos.compare mx my);
    rewrite (Pos.compare_antisym mx my); destruct (mx ?= my)%positive; reflexivity.
Qed.

Lemma SFltb_irrefl x : SFltb x x = false.
Proof.
  destruct x as [[]|[]| |[] mx ex]; cbn; try reflexivity;
    unfold SFltb; cbn; rewrite Z.compare_refl;
    change (Pos.compare_cont Eq mx mx) with (Pos.compare mx mx);
    now rewrite Pos.compare_refl.
Qed.

Lemma SFltb_asym x y : SFltb x y = true -> SFltb y x = false.
Proof.
  unfold SFltb. rewrite (SFcompare_antisym x y).
  destruct (SFcompare x y) as [[]|]; cbn; congruence.
Qed.


(** A non-negative value is not negative. *)
Lemma SFleb_zero_not_neg x :
  F32.ge x F32.zero = true -> F32.lt x F32.zero = false.
Proof. now destruct x as [[]|[]| |[] mx ex]. Qed.

(** The comparison of a quantity is a strict order. *)
Lemma qcmp_irrefl q x : qcmp q x x = false.
Proof. destruct q; apply SFltb_irrefl. Qed.

Lemma qcmp_asym q x y : qcmp q x y = true -> qcmp q y x = false.
Proof. destruct q; apply SFltb_asym. Qed.


(** ** The highest level seen *)

Lemma cell_lev_max n p st fr i :
  State_shape n st -> Frame_shape n fr -> (i < n)%nat ->
  lev_max (fold p st fr) !!! i = Z.max (lev_max st !!! i) (level fr !!! i).
Proof.
  intros Hst Hfr Hi. destruct Hst, Hfr. fields.
  rewrite cell_put, cell_map2; rewrite ?length_map2; try lia.
  destruct (level fr !!! i >? lev_max st !!! i) eqn:Hgt; lia.
Qed.

Lemma overwrite_cell_not cmp lvl qlv new old :
  overwrite_cell cmp lvl qlv new old = false -> lvl <= qlv.
Proof.
  unfold overwrite_cell. intros Hm.
  apply orb_false_elim in Hm as [_ Hm]. lia.
Qed.

Lemma fold_levels_agree n p st fr q i :
  State_shape n st -> Frame_shape n fr -> (i < n)%nat ->
  qlev q st !!! i = lev_max st !!! i ->
  qlev q (fold p st fr) !!! i = lev_max (fold p st fr) !!! i.
Proof.
  intros Hst Hfr Hi Hq.
  rewrite (cell_lev_max n p st fr i Hst Hfr Hi), <- Hq.
  destruct (fold_cell n p st fr q i Hst Hfr Hi) as [_ ->].
  destruct (overwrite_cell _ _ _ _ _) eqn:Hm.
  - apply overwrite_cell_level in Hm. lia.
  - apply overwrite_cell_not in Hm. lia.
Qed.

Lemma fold_all_levels_agree n p q i frs : forall st,
  State_shape n st -> Forall (Frame_shape n) frs -> (i < n)%nat ->
  qlev q st !!! i = lev_max st !!! i ->
  qlev q (fold_all p st frs) !!! i = lev_max (fold_all p st frs) !!! i.
Proof.
  induction frs as [|fr frs IH]; intros st Hst Hfrs Hi Hq; [exact Hq|].
  inversion Hfrs as [|? ? Hfr Hfrs']; subst.
  apply IH; [now apply fold_shape | assumption | assumption |].
  now apply (fold_levels_agree n).
Qed.

Lemma fold_all_lev_max n p i frs : forall st,
  State_shape n st -> Forall (Frame_shape n) frs -> (i < n)%nat ->
  lev_max (fold_all p st frs) !!! i =
  foldl Z.max (lev_max st !!! i) ((fun fr => level fr !!! i) <$> frs).
Proof.
  induction frs as [|fr frs IH]; intros st Hst Hfrs Hi; [reflexivity|].
  inversion Hfrs as [|? ? Hfr Hfrs']; subst.
  cbn [fold_all foldl fmap list_fmap].
  change (foldl (fold p) (fold p st fr) frs) with (fold_all p (fold p st fr) frs).
  rewrite IH by (try apply fold_shape; assumption).
  now rewrite (cell_lev_max n p st fr i Hst Hfr Hi).
Qed.

(** X1. Along the loop, started on the fresh arrays, the level recorded with
    each of the seven quantities is the highest level seen at the cell: the
    seven [*_lev] arrays all equal [lev_max]. *)
Theorem recorded_levels_equal_lev_max (n : nat) (p : Params) (q : Quantity)
    (i : nat) (frs : list Frame) :
  Forall (Frame_shape n) frs -> (i < n)%nat ->
  qlev q (fold_all p (init n) frs) !!! i =
  lev_max (fold_all p (init n) frs) !!! i.
Proof.
  intros Hfrs Hi.
  apply (fold_all_levels_agree n); [apply init_shape | assumption | assumption |].
  destruct q; cbn [qlev]; fields; now rewrite !cell_replicate by lia.
Qed.

Lemma recorded_levels_equal_lev_max_witness :
  qlev Hmin (fold_all Sample.p (init 2)
               [Sample.two 0 1 2 5 5; Sample.two 10 3 1 6 6]) !!! 1%nat =
  lev_max (fold_all Sample.p (init 2)
               [Sample.two 0 1 2 5 5; Sample.two 10 3 1 6 6]) !!! 1%nat.
Proof.
  apply (recorded_levels_equal_lev_max 2 Sample.p Hmin 1
           [Sample.two 0 1 2 5 5; Sample.two 10 3 1 6 6]).
  - repeat constructor.
  - lia.
Defined.

(** X2. After the loop, [lev_max] at a cell is the largest of 0 and the
    levels the frames have at that cell. *)
Theorem lev_max_is_highest_level (n : nat) (p : Params) (i : nat)
    (frs : list Frame) :
  Forall (Frame_shape n) frs -> (i < n)%nat ->
  lev_max (fold_all p (init n) frs) !!! i =
  foldl Z.max 0 ((fun fr => level fr !!! i) <$> frs).
Proof.
  intros Hfrs Hi.
  rewrite (fold_all_lev_max n p i frs (init n) (init_shape n) Hfrs Hi).
  fields. now rewrite cell_replicate by lia.
Qed.

Lemma lev_max_is_highest_level_witness :
  lev_max (fold_all Sample.p (init 2)
             [Sample.two 0 1 2 5 5; Sample.two 10 3 1 6 6]) !!! 0%nat = 3.
Proof.
  apply (lev_max_is_highest_level 2 Sample.p 0
           [Sample.two 0 1 2 5 5; Sample.two 10 3 1 6 6]).
  - repeat constructor.
  - lia.
Defined.

(** ** Where a record comes from *)

Lemma fold_all_record_source n p q i frs : forall st,
  State_shape n st -> Forall (Frame_shape n) frs -> (i < n)%nat ->
  (qval q (fold_all p st frs) !!! i = qval q st !!! i /\
   qlev q (fold_all p st frs) !!! i = qlev q st !!! i) \/
  (exists fr, fr ∈ frs /\
     qval q (fold_all p st frs) !!! i = qnew q p fr !!! i /\
     qlev q (fold_all p st frs) !!! i = level fr !!! i).
Proof.
  induction frs as [|f frs IH]; intros st Hst Hfrs Hi; [now left|].
  inversion Hfrs as [|? ? Hf Hfrs']; subst.
  cbn [fold_all foldl].
  change (foldl (fold p) (fold p st f) frs) with (fold_all p (fold p st f) frs).
  destruct (IH (fold p st f) (fold_shape n p st f Hst Hf) Hfrs' Hi)
    as [[Hv Hl]|(fr & Hin & Hv & Hl)].
  - destruct (fold_cell n p st f q i Hst Hf Hi) as [Hv1 Hl1].
    rewrite Hv, Hl, Hv1, Hl1.
    destruct (overwrite_cell _ _ _ _ _).
    + right. exists f. split; [apply list_elem_of_here | now split].
    + now left.
  - right. exists fr. split; [now apply list_elem_of_further | now split].
Qed.

(** X3. After the loop, started on the fresh arrays, the value and the level
    recorded for a quantity at a cell are either both still the initial ones
    (level 0) or the value and the level that one and the same frame has at
    that cell. *)
Theorem record_comes_from_one_frame (n : nat) (p : Params) (q : Quantity)
    (i : nat) (frs : list Frame) :
  Forall (Frame_shape n) frs -> (i < n)%nat ->
  (qval q (fold_all p (init n) frs) !!! i = qval q (init n) !!! i /\
   qlev q (fold_all p (init n) frs) !!! i = 0) \/
  (exists fr, fr ∈ frs /\
     qval q (fold_all p (init n) frs) !!! i = qnew q p fr !!! i /\
     qlev q (fold_all p (init n) frs) !!! i = level fr !!! i).
Proof.
  intros Hfrs Hi.
  destruct (fold_all_record_source n p q i frs (init n) (init_shape n) Hfrs Hi)
    as [[Hv Hl]|H]; [left|now right].
  split; [exact Hv|]. rewrite Hl.
  destruct q; cbn [qlev]; fields; now rewrite cell_replicate by lia.
Qed.

Lemma record_comes_from_one_frame_witness :
  (qval Eta (fold_all Sample.p (init 2)
               [Sample.two 0 1 2 5 5; Sample.two 10 3 1 6 6]) !!! 0%nat
     = qval Eta (init 2) !!! 0%nat /\
   qlev Eta (fold_all Sample.p (init 2)
               [Sample.two 0 1 2 5 5; Sample.two 10 3 1 6 6]) !!! 0%nat = 0) \/
  (exists fr, fr ∈ [Sample.two 0 1 2 5 5; Sample.two 10 3 1 6 6] /\
     qval Eta (fold_all Sample.p (init 2)
                 [Sample.two 0 1 2 5 5; Sample.two 10 3 1 6 6]) !!! 0%nat
       = qnew Eta Sample.p fr !!! 0%nat /\
     qlev Eta (fold_all Sample.p (init 2)
                 [Sample.two 0 1 2 5 5; Sample.two 10 3 1 6 6]) !!! 0%nat
       = level fr !!! 0%nat).
Proof.
  apply (record_comes_from_one_frame 2 Sample.p Eta 0
           [Sample.two 0 1 2 5 5; Sample.two 10 3 1 6 6]).
  - repeat constructor.
  - lia.
Defined.

(** ** The best value at the finest level *)






(** ** The three time arrays together *)

(** The times of a cell after one pass, from its values before the pass. *)
Lemma cell_times n p st fr i :
  State_shape n st -> Frame_shape n fr -> (i < n)%nat ->
  let am := F32.lt (arrival_time st !!! i) F32.zero && arrives i fr in
  let a1 := if am then time fr else arrival_time st !!! i in
  let e1 := if am then time fr else eta_max_time st !!! i in
  let v1 := if am then time fr else vel_max_time st !!! i in
  let recent := F32.lt (F32.sub (time fr) e1) F32.c_60 && F32.ge a1 F32.zero in
  arrival_time (fold p st fr) !!! i = a1 /\
  eta_max_time (fold p st fr) !!! i =
    (if (qmask Eta p st fr !!! i : bool) && recent then time fr else e1) /\
  vel_max_time (fold p st fr) !!! i =
    (if (qmask Velmax p st fr !!! i : bool) && recent then time fr else v1).
Proof.
  intros Hst Hfr Hi am a1 e1 v1 recent.
  pose proof (length_overwrite_arrival n st fr Hst Hfr) as La.
  pose proof (length_not_super_late n st fr Hst Hfr) as Ls.
  pose proof (length_qmask n Eta p st fr Hst Hfr) as Le.
  pose proof (length_qmask n Velmax p st fr Hst Hfr) as Lv.
  pose proof (cell_not_super_late n st fr i Hst Hfr Hi) as Hs.
  pose proof (cell_overwrite_arrival n st fr i Hst Hfr Hi) as Ha.
  fold am in Ha.
  destruct Hst, Hfr. cbn [qmask] in *.
  assert (arrival_time_1 st fr !!! i = a1) as H1
    by (unfold arrival_time_1; rewrite cell_fill by lia; now rewrite Ha).
  assert (eta_max_time_1 st fr !!! i = e1) as H2
    by (unfold eta_max_time_1; rewrite cell_fill by lia; now rewrite Ha).
  assert (vel_max_time_1 st fr !!! i = v1) as H3
    by (unfold vel_max_time_1; rewrite cell_fill by lia; now rewrite Ha).
  assert (length (eta_max_time_1 st fr) = n) as L1
    by (unfold eta_max_time_1; rewrite length_fill; lia).
  assert (length (vel_max_time_1 st fr) = n) as L2
    by (unfold vel_max_time_1; rewrite length_fill; lia).
  rewrite H1, H2 in Hs. fold recent in Hs.
  split; [|split]; fields.
  - exact H1.
  - unfold overwrite_eta_time.
    rewrite cell_fill, cell_map2, Hs, H2; rewrite ?length_map2; try lia.
    reflexivity.
  - unfold overwrite_vel_time.
    rewrite cell_fill, cell_map2, Hs, H3; rewrite ?length_map2; try lia.
    reflexivity.
Qed.

Lemma fold_times_together n p st fr i :
  State_shape n st -> Frame_shape n fr -> (i < n)%nat ->
  F32.ge (time fr) F32.zero = true ->
  times_together (arrival_time st !!! i) (eta_max_time st !!! i)
                 (vel_max_time st !!! i) ->
  times_together (arrival_time (fold p st fr) !!! i)
                 (eta_max_time (fold p st fr) !!! i)
                 (vel_max_time (fold p st fr) !!! i).
Proof.
  intros Hst Hfr Hi Ht Hinv.
  destruct (cell_times n p st fr i Hst Hfr Hi) as (-> & -> & ->).
  destruct Hinv as [(-> & -> & ->)|(Ha & He & Hv)].
  - destruct (F32.lt F32.c_m1 F32.zero && arrives i fr).
    + right. now destruct (_ && _), (_ && _).
    + left. change (F32.ge F32.c_m1 F32.zero) with false.
      now rewrite !andb_false_r.
  - right. rewrite (SFleb_zero_not_neg _ Ha). cbn [andb].
    now destruct (_ && _), (_ && _).
Qed.

Lemma fold_all_times_together n p i frs : forall st,
  State_shape n st -> Forall (Frame_shape n) frs -> (i < n)%nat ->
  Forall (fun fr => F32.ge (time fr) F32.zero = true) frs ->
  times_together (arrival_time st !!! i) (eta_max_time st !!! i)
                 (vel_max_time st !!! i) ->
  times_together (arrival_time (fold_all p st frs) !!! i)
                 (eta_max_time (fold_all p st frs) !!! i)
                 (vel_max_time (fold_all p st frs) !!! i).
Proof.
  induction frs as [|f frs IH]; intros st Hst Hfrs Hi Ht Hinv; [exact Hinv|].
  inversion Hfrs as [|? ? Hf Hfrs']; subst.
  inversion Ht as [|? ? Htf Ht']; subst.
  apply IH; [now apply fold_shape | assumption | assumption | assumption |].
  now apply (fold_times_together n).
Qed.

(** X5. With frame times that are at least 0, the arrival time and the two
    peak times of a cell are set together: along the loop either all three
    still hold the fill value -1 or all three are at least 0, and in the
    arrays that are written either all three are NaN or all three are at
    least 0. *)
Theorem times_set_together (n : nat) (p : Params) (i : nat)
    (frs : list Frame) :
  Forall (Frame_shape n) frs -> (i < n)%nat ->
  Forall (fun fr => F32.ge (time fr) F32.zero = true) frs ->
  times_together (arrival_time (fold_all p (init n) frs) !!! i)
                 (eta_max_time (fold_all p (init n) frs) !!! i)
                 (vel_max_time (fold_all p (init n) frs) !!! i) /\
  ((arrival_time (finalize (fold_all p (init n) frs)) !!! i = F32.nan /\
    eta_max_time (finalize (fold_all p (init n) frs)) !!! i = F32.nan /\
    vel_max_time (finalize (fold_all p (init n) frs)) !!! i = F32.nan) \/
   (F32.ge (arrival_time (finalize (fold_all p (init n) frs)) !!! i) F32.zero = true /\
    F32.ge (eta_max_time (finalize (fold_all p (init n) frs)) !!! i) F32.zero = true /\
    F32.ge (vel_max_time (finalize (fold_all p (init n) frs)) !!! i) F32.zero = true)).
Proof.
  intros Hfrs Hi Ht.
  assert (times_together (arrival_time (fold_all p (init n) frs) !!! i)
                 (eta_max_time (fold_all p (init n) frs) !!! i)
                 (vel_max_time (fold_all p (init n) frs) !!! i)) as Hinv.
  { apply (fold_all_times_together n); try assumption; [apply init_shape|].
    left. fields. now rewrite !cell_replicate by lia. }
  split; [exact Hinv|].
  pose proof (fold_all_shape n p frs (init n) (init_shape n) Hfrs) as Hst.
  pose proof (length_never_inundated n _ Hst) as Ln.
  destruct Hst. fields. rewrite !cell_masked_time by lia.
  destruct (never_inundated _ !!! i); [now left|].
  destruct Hinv as [(-> & -> & ->)|(Ha & He & Hv)]; [now left|right].
  now rewrite (SFleb_zero_not_neg _ Ha), (SFleb_zero_not_neg _ He),
    (SFleb_zero_not_neg _ Hv).
Qed.

Lemma times_set_together_witness :
  times_together
    (arrival_time (fold_all Sample.p (init 2)
       [Sample.two 0 1 2 5 5; Sample.two 10 2 2 6 6]) !!! 0%nat)
    (eta_max_time (fold_all Sample.p (init 2)
       [Sample.two 0 1 2 5 5; Sample.two 10 2 2 6 6]) !!! 0%nat)
    (vel_max_time (fold_all Sample.p (init 2)
       [Sample.two 0 1 2 5 5; Sample.two 10 2 2 6 6]) !!! 0%nat).
Proof.
  apply (times_set_together 2 Sample.p 0
           [Sample.two 0 1 2 5 5; Sample.two 10 2 2 6 6]).
  - repeat constructor.
  - lia.
  - repeat constructor.
Defined.

(** ** The same frame twice *)

Lemma list_cells_eq {A : Type} `{!Inhabited A} (a b : list A) (n : nat) :
  length a = n -> length b = n ->
  (forall i, (i < n)%nat -> a !!! i = b !!! i) -> a = b.
Proof.
  intros La Lb H. apply (list_eq_same_length _ _ n); [assumption..|].
  intros i x y Hi Hx Hy. specialize (H i Hi).
  rewrite !list_lookup_total_alt, Hx, Hy in H. exact H.
Qed.

(** Two states of the same shape with the same cells are equal. *)
Lemma state_cells_eq n s1 s2 :
  State_shape n s1 -> State_shape n s2 ->
  (forall i, (i < n)%nat ->
     (forall q, qval q s1 !!! i = qval q s2 !!! i /\
                qlev q s1 !!! i = qlev q s2 !!! i) /\
     lev_max s1 !!! i = lev_max s2 !!! i /\
     arrival_time s1 !!! i = arrival_time s2 !!! i /\
     eta_max_time s1 !!! i = eta_max_time s2 !!! i /\
     vel_max_time s1 !!! i = vel_max_time s2 !!! i) ->
  s1 = s2.
Proof.
  intros H1 H2 H. destruct H1, H2. destruct s1, s2. cbn in *.
  f_equal; apply (list_cells_eq _ _ n); try assumption;
    intros i Hi; destruct (H i Hi) as (Hq & Hl & Ha & He & Hv);
    first [ exact Hl | exact Ha | exact He | exact Hv
          | exact (proj1 (Hq Eta)) | exact (proj2 (Hq Eta))
          | exact (proj1 (Hq Hmax)) | exact (proj2 (Hq Hmax))
          | exact (proj1 (Hq Hmin)) | exact (proj2 (Hq Hmin))
          | exact (proj1 (Hq Mmax)) | exact (proj2 (Hq Mmax))
          | exact (proj1 (Hq Velmax)) | exact (proj2 (Hq Velmax))
          | exact (proj1 (Hq Mommax)) | exact (proj2 (Hq Mommax))
          | exact (proj1 (Hq Froudemax)) | exact (proj2 (Hq Froudemax)) ].
Qed.

(** A frame that has just been folded no longer overwrites. *)
Lemma fold_mask_spent n p st fr q i :
  State_shape n st -> Frame_shape n fr -> (i < n)%nat ->
  overwrite_cell (qcmp q) (level fr !!! i) (qlev q (fold p st fr) !!! i)
                 (qnew q p fr !!! i) (qval q (fold p st fr) !!! i) = false.
Proof.
  intros Hst Hfr Hi.
  destruct (fold_cell n p st fr q i Hst Hfr Hi) as [-> ->].
  destruct (overwrite_cell (qcmp q) (level fr !!! i) (qlev q st !!! i)
              (qnew q p fr !!! i) (qval q st !!! i)) eqn:How; [|exact How].
  unfold overwrite_cell. rewrite qcmp_irrefl, andb_false_r. cbn [orb]. lia.
Qed.

(** X6. Folding a frame whose time is not negative a second time, right after
    the first, changes nothing: the state after the two passes is the state
    after one. *)
Theorem fold_same_frame_twice (n : nat) (p : Params) (st : State)
    (fr : Frame) :
  State_shape n st -> Frame_shape n fr ->
  F32.lt (time fr) F32.zero = false ->
  fold p (fold p st fr) fr = fold p st fr.
Proof.
  intros Hst Hfr Ht.
  pose proof (fold_shape n p st fr Hst Hfr) as Hst1.
  pose proof (fold_shape n p _ fr Hst1 Hfr) as Hst2.
  apply (state_cells_eq n); [assumption..|].
  intros i Hi.
  assert (forall q, qmask q p (fold p st fr) fr !!! i = false) as Hspent.
  { intros q. rewrite (cell_qmask n q p _ fr i Hst1 Hfr Hi).
    now apply (fold_mask_spent n). }
  split; [|split].
  - intros q. destruct (fold_cell n p (fold p st fr) fr q i Hst1 Hfr Hi) as [-> ->].
    now rewrite (fold_mask_spent n p st fr q i Hst Hfr Hi).
  - rewrite !(cell_lev_max n) by assumption. lia.
  - destruct (cell_times n p (fold p st fr) fr i Hst1 Hfr Hi) as (-> & -> & ->).
    rewrite !Hspent. cbn [andb].
    assert (F32.lt (arrival_time (fold p st fr) !!! i) F32.zero && arrives i fr
            = false) as ->.
    { destruct (cell_times n p st fr i Hst Hfr Hi) as (-> & _).
      destruct (F32.lt (arrival_time st !!! i) F32.zero && arrives i fr) eqn:Ham.
      - now rewrite Ht.
      - exact Ham. }
    now repeat split.
Qed.

Lemma fold_same_frame_twice_witness :
  fold Sample.p (fold Sample.p (init 1) (Sample.wet 3 1)) (Sample.wet 3 1)
  = fold Sample.p (init 1) (Sample.wet 3 1).
Proof.
  apply (fold_same_frame_twice 1 Sample.p (init 1) (Sample.wet 3 1)).
  - apply init_shape.
  - repeat constructor.
  - reflexivity.
Defined.

(** ** What the driver writes *)

Lemma loop_processed p nplots files : forall st,
  loop p nplots files st = fold_all p st (processed nplots files).
Proof.
  unfold loop, processed, fold_all.
  induction files as [|f files IH]; intros st; [reflexivity|].
  cbn [foldl List.filter]. rewrite IH.
  now destruct (calc nplots f).
Qed.

Lemma finalize_shape n st : State_shape n st -> State_shape n (finalize st).
Proof.
  intros Hst. pose proof (length_never_inundated n st Hst) as Ln.
  destruct Hst. constructor; fields; try assumption;
    unfold mask_negative;
    repeat rewrite ?length_fill, ?length_fmap; lia.
Qed.


Lemma driver_writes first rest nplots p write_froude out :
  dclaw2maxval_withlev (first :: rest) nplots p write_froude = inr out ->
  existsb (calc nplots) (first :: rest) = true /\
  out = write_bands
          (finalize (fold_all p (init (dims first))
                       (processed nplots (first :: rest))))
          write_froude.
Proof.
  unfold dclaw2maxval_withlev. rewrite loop_processed.
  destruct (existsb (calc nplots) (first :: rest)); [|discriminate].
  intros Hrun. injection Hrun as <-. now split.
Qed.


(** X8. When the frames that are folded have the size of the first raster,
    the bands of the raster are numbered 1 to 10, or 1 to 11 with the froude
    band, and each holds one value per cell of the first raster. *)
Theorem raster_bands_shape (first : RasterFile) (rest : list RasterFile)
    (nplots : option (list Z)) (p : Params) (write_froude : bool)
    (out : list (nat * Band)) :
  Forall (Frame_shape (dims first)) (processed nplots (first :: rest)) ->
  dclaw2maxval_withlev (first :: rest) nplots p write_froude = inr out ->
  out.*1 = seq 1 (if write_froude then 11 else 10) /\
  Forall (fun b => band_cells b = dims first) out.*2.
Proof.
  intros Hshape Hrun.
  apply driver_writes in Hrun as [_ ->].
  pose proof (finalize_shape _ _
    (fold_all_shape (dims first) p _ (init (dims first))
       (init_shape _) Hshape)) as Hst.
  set (st := finalize _) in *. clearbody st.
  destruct Hst. unfold write_bands.
  split; [now destruct write_froude|].
  destruct write_froude; cbn [fmap list_fmap app snd band_cells];
    repeat (apply Forall_cons_2; [assumption|]); apply Forall_nil_2.
Qed.

Lemma raster_bands_shape_witness :
  (write_bands
     (finalize (loop Sample.p (Some [2]) [Sample.file 1 (Sample.dry 0 1);
                                          Sample.file 2 (Sample.wet 1 1)]
                     (init 1))) false).*1 = seq 1 10.
Proof.
  apply (raster_bands_shape (Sample.file 1 (Sample.dry 0 1))
           [Sample.file 2 (Sample.wet 1 1)] (Some [2]) Sample.p false).
  - repeat constructor.
  - reflexivity.
Defined.

(** ** The extent *)

Lemma SFltb_nan_r x : SFltb x S754_nan = false.
Proof. now destruct x as [[]|[]| |[] mx ex]. Qed.

(** At least 1e-5 is: not below 1e-5, and above 0 (NaN is neither). *)
Lemma ge_c_1em5 x :
  F32.gt (if F32.lt x F32.c_1em5 then F32.nan else x) F32.zero
  = F32.ge x F32.c_1em5.
Proof.
  unfold F32.gt, F32.lt, F32.ge, SFleb, SFltb.
  rewrite (SFcompare_antisym x F32.c_1em5).
  destruct x as [[]|[]| |[] mx ex]; try reflexivity.
  change F32.c_1em5 with (S754_finite false 10995116 (-40)).
  destruct (SFcompare (S754_finite false mx ex) _) as [[]|] eqn:Hc;
    try reflexivity.
  discriminate Hc.
Qed.

Lemma fill_fmap {A : Type} (P : A -> bool) (c : A) (a : list A) :
  Np.fill a (P <$> a) c = (fun x => if P x then c else x) <$> a.
Proof.
  unfold Np.fill. induction a as [|x a IH]; [reflexivity|].
  cbn [fmap list_fmap zip_with]. now f_equal.
Qed.

(** X9. With the selector ["height"] and the threshold 0, the defaults of the
    command line, the extent taken from the masked arrays is the set of cells
    whose depth maximum is at least 1e-5. *)
Theorem default_extent_is_inundated_area (st : State) :
  extent "height" F32.zero (finalize st)
  = Some ((fun x => F32.ge x F32.c_1em5) <$> h_max st).
Proof.
  unfold extent. cbn [String.eqb Ascii.eqb Bool.eqb andb]. f_equal.
  fields. unfold never_inundated. rewrite fill_fmap, <- list_fmap_compose.
  apply list_fmap_ext. intros _ x _. apply ge_c_1em5.
Qed.

(** X10. Whatever the selector and the threshold, a cell whose depth maximum
    is below 1e-5 is outside the extent taken from the masked arrays. *)
Theorem extent_excludes_never_inundated (n : nat) (st : State) (i : nat)
    (extent_shp_val : string) (thresh : f32) (mask : list bool) :
  State_shape n st -> (i < n)%nat ->
  F32.lt (h_max st !!! i) F32.c_1em5 = true ->
  extent extent_shp_val thresh (finalize st) = Some mask ->
  mask !!! i = false.
Proof.
  intros Hst Hi Hdry Hext.
  pose proof (cell_never_inundated n st i Hst Hi) as Hc.
  pose proof (length_never_inundated n st Hst) as Ln.
  rewrite Hdry in Hc. destruct Hst. unfold extent in Hext.
  destruct (String.eqb extent_shp_val "velocity");
    [|destruct (String.eqb extent_shp_val "momentum");
      [|destruct (String.eqb extent_shp_val "height"); [|discriminate Hext]]];
    injection Hext as <-; fields;
    rewrite cell_fmap, cell_fill, Hc by (rewrite ?length_fill; lia);
    apply SFltb_nan_r.
Qed.

Lemma extent_excludes_never_inundated_witness :
  [F32.gt (h_max (finalize (fold Sample.p (init 1) (Sample.dry 0 1))) !!! 0%nat)
          (F32.of_Z (-5))] !!! 0%nat = false.
Proof.
  apply (extent_excludes_never_inundated 1
           (fold Sample.p (init 1) (Sample.dry 0 1)) 0 "height" (F32.of_Z (-5))).
  - apply fold_shape; [apply init_shape | repeat constructor].
  - lia.
  - reflexivity.
  - reflexivity.
Defined.

(** ** The raster and the extent *)

(** X11. The extent stage comes after the raster is written and never undoes
    it: when the reduction fails, nothing is written and the failure is the
    reduction's; when it writes a raster, the full run writes that raster
    first, and then either stops there (no extent asked for, an unknown
    selector, or an invalid geometry) or adds the shapefile of a valid
    extent. *)
Theorem extent_stage_keeps_raster (is_valid : list bool -> bool)
    (files : list RasterFile) (nplots : option (list Z)) (p : Params)
    (write_froude extent_shp : bool) (extent_shp_val : string) (thresh : f32) :
  match dclaw2maxval_withlev files nplots p write_froude with
  | inl e =>
      dclaw2maxval_withlev_extent is_valid files nplots p write_froude
        extent_shp extent_shp_val thresh = ([], Some (Raised e))
  | inr out =>
      dclaw2maxval_withlev_extent is_valid files nplots p write_froude
        extent_shp extent_shp_val thresh = ([Raster out], None)
        /\ extent_shp = false
      \/ dclaw2maxval_withlev_extent is_valid files nplots p write_froude
           extent_shp extent_shp_val thresh
         = ([Raster out], Some UnboundLocalError_extent)
      \/ dclaw2maxval_withlev_extent is_valid files nplots p write_froude
           extent_shp extent_shp_val thresh
         = ([Raster out], Some AssertionError_is_valid)
      \/ exists mask,
           is_valid mask = true /\
           dclaw2maxval_withlev_extent is_valid files nplots p write_froude
             extent_shp extent_shp_val thresh
           = ([Raster out; Shapefile mask], None)
  end.
Proof.
  destruct files as [|first rest]; [reflexivity|].
  unfold dclaw2maxval_withlev, dclaw2maxval_withlev_extent.
  destruct (existsb (calc nplots) (first :: rest)); [|reflexivity].
  destruct extent_shp; [|now left].
  destruct (extent extent_shp_val thresh _) as [mask|]; [|now right; left].
  destruct (is_valid mask) eqn:Hv.
  - right; right; right. now exists mask.
  - now right; right; left.
Qed.


Lemma extent_unknown_selector (v : string) thresh st :
  v ∉ ["height"; "momentum"; "velocity"] -> extent v thresh st = None.
Proof.
  intros Hnot. unfold extent.
  destruct (String.eqb_spec v "velocity") as [->|_];
    [exfalso; apply Hnot; repeat constructor|].
  destruct (String.eqb_spec v "momentum") as [->|_];
    [exfalso; apply Hnot; repeat constructor|].
  destruct (String.eqb_spec v "height") as [->|_];
    [exfalso; apply Hnot; repeat constructor|].
  reflexivity.
Qed.

(** X12. Called with an extent selector that is none of ["height"],
    ["momentum"], ["velocity"], on rasters of which at least one is folded,
    the function writes the raster and then raises [UnboundLocalError]:
    [extent] was never bound, and no shapefile is written. *)
Theorem unknown_selector_raises_after_raster (is_valid : list bool -> bool)
    (files : list RasterFile) (nplots : option (list Z)) (p : Params)
    (write_froude : bool) (extent_shp_val : string) (thresh : f32)
    (out : list (nat * Band)) :
  extent_shp_val ∉ ["height"; "momentum"; "velocity"] ->
  dclaw2maxval_withlev files nplots p write_froude = inr out ->
  dclaw2maxval_withlev_extent is_valid files nplots p write_froude
    true extent_shp_val thresh
  = ([Raster out], Some UnboundLocalError_extent).
Proof.
  intros Hnot Hrun. destruct files as [|first rest]; [discriminate Hrun|].
  unfold dclaw2maxval_withlev in Hrun. unfold dclaw2maxval_withlev_extent.
  destruct (existsb (calc nplots) (first :: rest)); [|discriminate Hrun].
  injection Hrun as <-. now rewrite extent_unknown_selector.
Qed.

Lemma unknown_selector_raises_after_raster_witness :
  dclaw2maxval_withlev_extent (fun _ => true)
    [Sample.file 1 (Sample.wet 0 1)] None Sample.p false true "depth" F32.zero
  = ([Raster (write_bands
                (finalize (loop Sample.p None [Sample.file 1 (Sample.wet 0 1)]
                                (init 1))) false)],
     Some UnboundLocalError_extent).
Proof.
  apply (unknown_selector_raises_after_raster (fun _ => true)
           [Sample.file 1 (Sample.wet 0 1)] None Sample.p false "depth" F32.zero).
  - intros Hin. repeat (apply elem_of_cons in Hin as [Hin|Hin]; [discriminate Hin|]).
    now apply elem_of_nil in Hin.
  - reflexivity.
Defined.

(** ** The command line *)

Lemma arg_write_froude_false cl : arg_write_froude cl = false.
Proof. unfold arg_write_froude, flag. now destruct (cl_wf cl). Qed.

Lemma arg_check_done_true cl : arg_check_done cl = true.
Proof. unfold arg_check_done, flag. now destruct (cl_cd cl). Qed.

Lemma arg_extent_shp_val_choice cl v :
  arg_extent_shp_val cl = Some v -> v ∈ ["height"; "momentum"; "velocity"].
Proof.
  unfold arg_extent_shp_val. destruct (cl_sval cl) as [w|].
  - case_bool_decide; [|discriminate]. now intros [= <-].
  - intros [= <-]. repeat constructor.
Qed.

(** What [main] runs, once the command line is parsed. *)
Lemma main_ran is_valid cl forts tifs dig conv written failure :
  main is_valid cl forts tifs dig = Ran conv written failure ->
  exists sval, sval ∈ ["height"; "momentum"; "velocity"] /\
    conv = converted true forts /\
    (written, failure) =
      dclaw2maxval_withlev_extent is_valid tifs None dig false
        (arg_extent_shp cl) sval (arg_extent_shp_val_thresh cl).
Proof.
  unfold main. destruct (arg_extent_shp_val cl) as [sval|] eqn:Hs; [|discriminate].
  rewrite arg_write_froude_false, arg_check_done_true.
  destruct (dclaw2maxval_withlev_extent _ _ _ _ _ _ _ _) as [w f] eqn:Hrun.
  intros [= <- <- <-]. exists sval.
  split; [now apply (arg_extent_shp_val_choice cl)|]. now split.
Qed.

(** X13. Whatever is on the command line, [main] never writes the froude
    band: [-wf] stores [False] over a default that is [False] already, so a
    raster written by [main] has the ten bands 1 to 10. *)
Theorem main_never_writes_froude (is_valid : list bool -> bool)
    (cl : CommandLine) (forts : list FortFile) (tifs : list RasterFile)
    (dig : Params) (conv : option (list Z)) (written : list Written)
    (failure : option Failure) (out : list (nat * Band)) :
  main is_valid cl forts tifs dig = Ran conv written failure ->
  Raster out ∈ written ->
  out.*1 = seq 1 10 /\ band_of 11 out = None.
Proof.
  intros Hmain Hin.
  apply main_ran in Hmain as (sval & _ & _ & Hrun).
  destruct tifs as [|first rest].
  - injection Hrun as -> _. now apply elem_of_nil in Hin.
  - unfold dclaw2maxval_withlev_extent in Hrun.
    set (st := finalize _) in Hrun. clearbody st.
    assert (written = [Raster (write_bands st false)] \/
            exists mask, written = [Raster (write_bands st false); Shapefile mask])
      as Hw.
    { cbn [existsb calc orb] in Hrun.
      destruct (arg_extent_shp cl); [|left; now injection Hrun as -> ->].
      destruct (extent sval _ st) as [mask|];
        [|left; now injection Hrun as -> ->].
      destruct (is_valid mask); injection Hrun as -> ->;
        [right; now exists mask | now left]. }
    assert (out = write_bands st false) as ->.
    { destruct Hw as [->|[mask ->]].
      - apply list_elem_of_singleton in Hin. congruence.
      - apply elem_of_cons in Hin as [Hin|Hin]; [congruence|].
        apply list_elem_of_singleton in Hin. discriminate Hin. }
    now split.
Qed.

Lemma main_never_writes_froude_witness :
  (write_bands
     (finalize (loop Sample.p None [Sample.file 1 (Sample.wet 0 1)] (init 1)))
     false).*1 = seq 1 10.
Proof.
  apply (main_never_writes_froude (fun _ => true)
           {| cl_cd := false; cl_wf := true; cl_shp := true;
              cl_sval := None; cl_sth := None |}
           [] [Sample.file 1 (Sample.wet 0 1)] Sample.p None
           [Raster (write_bands
                      (finalize (loop Sample.p None
                                   [Sample.file 1 (Sample.wet 0 1)] (init 1)))
                      false)]
           None).
  - reflexivity.
  - apply list_elem_of_here.
Defined.



(** ** The frames to convert *)

Lemma nfiles_nil check_done forts :
  nfiles check_done forts = [] <->
  Forall (fun f => process check_done f = false) forts.
Proof.
  unfold nfiles. split.
  - intros Hnil.
    assert (numstr <$> filter (fun f => process check_done f = true) forts = [])
      as Hf.
    { apply Permutation_nil_r. rewrite <- Hnil.
      symmetry. apply merge_sort_Permutation. }
    apply fmap_nil_inv in Hf. apply Forall_forall. intros f Hin.
    destruct (process check_done f) eqn:Hp; [|reflexivity].
    exfalso. now apply (filter_nil_not_elem_of _ _ f Hf).
  - intros Hall.
    assert (filter (fun f => process check_done f = true) forts = []) as ->.
    { induction Hall as [|f l Hf _ IH]; [reflexivity|].
      rewrite filter_cons, IH. case_decide; [congruence|reflexivity]. }
    reflexivity.
Qed.

(** X15. The frame numbers handed to [convertfortdir] are in ascending order
    and are exactly the numbers of the [fort.q] files that need converting:
    those without a tif, those whose tif is not strictly newer, and all of
    them when [check_done] is off. *)
Theorem nfiles_sorted_selection (check_done : bool) (forts : list FortFile)
    (k : Z) :
  Sorted Z.le (nfiles check_done forts) /\
  (k ∈ nfiles check_done forts <->
   exists f, f ∈ forts /\ numstr f = k /\
     (check_done = false \/ mtime_tif f = None \/
      exists t, mtime_tif f = Some t /\ SFltb (mtime_fort f) t = false)).
Proof.
  unfold nfiles. split; [apply (Sorted_merge_sort Z.le)|].
  rewrite merge_sort_Permutation, list_elem_of_fmap.
  split.
  - intros (f & -> & Hin). apply list_elem_of_filter in Hin as [Hp Hin].
    exists f. split; [exact Hin|]. split; [reflexivity|].
    unfold process in Hp. destruct (mtime_tif f) as [t|]; [|now right; left].
    destruct check_done; [|now left].
    right; right. exists t. split; [reflexivity|].
    now destruct (SFltb (mtime_fort f) t).
  - intros (f & Hin & <- & H). exists f. split; [reflexivity|].
    apply list_elem_of_filter. split; [|exact Hin].
    unfold process. destruct H as [->|[->|(t & -> & ->)]];
      [now destruct (mtime_tif f) | reflexivity | now destruct check_done].
Qed.

(** X16. Whatever is on the command line, [main] skips [convertfortdir]
    exactly when every [fort.q] file has a tif that is strictly newer: [-cd]
    stores [True] over a default that is [True] already, so the check cannot
    be turned off. *)
Theorem main_skips_conversion (is_valid : list bool -> bool)
    (cl : CommandLine) (forts : list FortFile) (tifs : list RasterFile)
    (dig : Params) (conv : option (list Z)) (written : list Written)
    (failure : option Failure) :
  main is_valid cl forts tifs dig = Ran conv written failure ->
  (conv = None <->
   Forall (fun f => exists t, mtime_tif f = Some t /\
                              SFltb (mtime_fort f) t = true) forts).
Proof.
  intros Hmain. apply main_ran in Hmain as (_ & _ & -> & _).
  unfold converted.
  assert (nfiles true forts = [] <->
          Forall (fun f => exists t, mtime_tif f = Some t /\
                                     SFltb (mtime_fort f) t = true) forts) as <-.
  { rewrite nfiles_nil. apply Forall_iff. intros f. unfold process.
    destruct (mtime_tif f) as [t|].
    - destruct (SFltb (mtime_fort f) t) eqn:Hlt.
      + split; [intros _; now exists t | reflexivity].
      + split; [discriminate|]. intros (t' & [= <-] & Hlt'). congruence.
    - split; [discriminate|]. now intros (t & Ht & _). }
  destruct (nfiles true forts); split; congruence.
Qed.

Lemma main_skips_conversion_witness :
  (None : option (list Z)) = None <->
  Forall (fun f => exists t, mtime_tif f = Some t /\
                             SFltb (mtime_fort f) t = true)
    [ {| numstr := 3; mtime_fort := F32.of_Z 100;
         mtime_tif := Some (F32.of_Z 200) |} ].
Proof.
  apply (main_skips_conversion (fun _ => true)
           {| cl_cd := false; cl_wf := false; cl_shp := false;
              cl_sval := None; cl_sth := None |}
           [ {| numstr := 3; mtime_fort := F32.of_Z 100;
                mtime_tif := Some (F32.of_Z 200) |} ]
           [] Sample.p None [] (Some (Raised ValueError_no_files))).
  reflexivity.
Defined.

(** ** What the masking keeps *)

(** X17. At a cell whose depth maximum is not below 1e-5 the masking leaves
    the depth, solid-fraction, velocity, momentum-flux and froude maxima as
    the loop recorded them, and leaves each of the three times as recorded
    unless it is negative. *)
Theorem finalize_keeps_inundated_cells (n : nat) (st : State) (i : nat) :
  State_shape n st -> (i < n)%nat ->
  F32.lt (h_max st !!! i) F32.c_1em5 = false ->
  h_max (finalize st) !!! i = h_max st !!! i /\
  m_max (finalize st) !!! i = m_max st !!! i /\
  vel_max (finalize st) !!! i = vel_max st !!! i /\
  mom_max (finalize st) !!! i = mom_max st !!! i /\
  froude_max (finalize st) !!! i = froude_max st !!! i /\
  (F32.lt (arrival_time st !!! i) F32.zero = false ->
     arrival_time (finalize st) !!! i = arrival_time st !!! i) /\
  (F32.lt (eta_max_time st !!! i) F32.zero = false ->
     eta_max_time (finalize st) !!! i = eta_max_time st !!! i) /\
  (F32.lt (vel_max_time st !!! i) F32.zero = false ->
     vel_max_time (finalize st) !!! i = vel_max_time st !!! i).
Proof.
  intros Hst Hi Hwet.
  pose proof (cell_never_inundated n st i Hst Hi) as Hc.
  pose proof (length_never_inundated n st Hst) as Ln.
  rewrite Hwet in Hc. destruct Hst. fields.
  rewrite !cell_masked_time, !cell_fill, Hc by lia.
  repeat split; now intros ->.
Qed.

Lemma finalize_keeps_inundated_cells_witness :
  h_max (finalize (fold Sample.p (init 1) (Sample.wet 0 1))) !!! 0%nat
  = h_max (fold Sample.p (init 1) (Sample.wet 0 1)) !!! 0%nat.
Proof.
  apply (finalize_keeps_inundated_cells 1
           (fold Sample.p (init 1) (Sample.wet 0 1)) 0).
  - apply fold_shape; [apply init_shape | repeat constructor].
  - lia.
  - reflexivity.
Defined.

(** ** Zero depth with a flux *)

(** X18. Only NaN is replaced by 0 in the derived quantities.  At a cell of
    zero depth, a finite non-zero solid flux gives an infinite solid
    fraction, and two finite non-zero momentum fluxes give an infinite
    velocity; both are kept. *)
Theorem zero_depth_flux_is_infinite (n : nat) (fr : Frame) (i : nat)
    (sh s su sv : bool) (mm mu mv : positive) (e eu ev : Z) :
  Frame_shape n fr -> (i < n)%nat ->
  h fr !!! i = S754_zero sh ->
  hm fr !!! i = S754_finite s mm e ->
  hu fr !!! i = S754_finite su mu eu ->
  hv fr !!! i = S754_finite sv mv ev ->
  m fr !!! i = S754_infinity (xorb s sh) /\
  vel fr !!! i = S754_infinity false.
Proof.
  intros Hfr Hi Hh Hm Hu Hv. destruct Hfr. split.
  - unfold m. cells. now rewrite Hh, Hm.
  - unfold vel. cells. rewrite Hh, Hu, Hv.
    now destruct sh, su, sv.
Qed.

Lemma zero_depth_flux_is_infinite_witness :
  m (Sample.cell 0 1 F32.zero (F32.of_Z 1) (F32.of_Z 1) (F32.of_Z 1) F32.zero)
    !!! 0%nat = S754_infinity false /\
  vel (Sample.cell 0 1 F32.zero (F32.of_Z 1) (F32.of_Z 1) (F32.of_Z 1) F32.zero)
    !!! 0%nat = S754_infinity false.
Proof.
  apply (zero_depth_flux_is_infinite 1
           (Sample.cell 0 1 F32.zero (F32.of_Z 1) (F32.of_Z 1) (F32.of_Z 1) F32.zero)
           0 false false false false 8388608 8388608 8388608 (-23) (-23) (-23)).
  - repeat constructor.
  - lia.
  - reflexivity.
  - reflexivity.
  - reflexivity.
  - reflexivity.
Defined.
